(** * shipitd: the agent's data-plane runtime

    A shallow embedding of the frame codec ([pkg/types/message.go]), the
    protocol reader and writer ([internal/protocol]), the connection pool,
    the data-plane client and the tunnel manager ([internal/client]) and the
    HTTP forwarder ([internal/proxy/http_proxy.go]), followed by the
    properties of the specification that concern them.

    Conventions.  A Go [string] is a Rocq [string] (a sequence of 8-bit
    characters), a [[]byte] is a [list byte], an [int] or [uint32] is a [Z]
    with the wrap-around written where the source converts, a
    [map[string]T] is a [gmap string T], [time.Time] and [time.Duration]
    are [Z] (nanoseconds).  A method with a pointer receiver that mutates
    it takes the receiver's state and returns the new one. *)

From Stdlib Require Import ZArith List Lia Bool.
From Stdlib Require Import Strings.String Strings.Ascii Strings.Byte.
From Stdlib Require Import Numbers.DecimalString.
From stdpp Require Import base option gmap strings list fin_maps.
Import ListNotations.

#[local] Open Scope string_scope.
#[local] Open Scope list_scope.
#[local] Open Scope Z_scope.

(** ** Bytes and fixed-width integers *)

Module Bytes.

(** [byte(v)] on an unsigned integer: the low eight bits. *)
Definition byte_of_Z (v : Z) : byte :=
  match Byte.of_N (Z.to_N (v mod 256)) with
  | Some b => b
  | None => x00
  end.

(** [uint32(b)] on a byte. *)
Definition Z_of_byte (b : byte) : Z := Z.of_N (Byte.to_N b).

(** [uint32(n)] on an [int]: reduction modulo 2^32. *)
Definition uint32 (n : Z) : Z := n mod 2 ^ 32.

(** [len(s)] as an [int]. *)
Definition len {A} (l : list A) : Z := Z.of_nat (List.length l).

(** [binary.BigEndian.PutUint32(b, v)]: the four bytes written. *)
Definition PutUint32 (v : Z) : list byte :=
  [ byte_of_Z (Z.shiftr v 24); byte_of_Z (Z.shiftr v 16);
    byte_of_Z (Z.shiftr v 8); byte_of_Z v ].

(** [b[i]] on a slice whose length the caller has checked. *)
Definition at_ (b : list byte) (i : nat) : byte := nth i b x00.

(** [b[lo:hi]] on a slice whose length the caller has checked. *)
Definition slice (b : list byte) (lo hi : nat) : list byte :=
  firstn (hi - lo) (skipn lo b).

(** [binary.BigEndian.Uint32(b)]:
    [uint32(b[3]) | uint32(b[2])<<8 | uint32(b[1])<<16 | uint32(b[0])<<24]. *)
Definition Uint32 (b : list byte) : Z :=
  Z.lor (Z.lor (Z.lor (Z_of_byte (at_ b 3)) (Z.shiftl (Z_of_byte (at_ b 2)) 8))
               (Z.shiftl (Z_of_byte (at_ b 1)) 16))
        (Z.shiftl (Z_of_byte (at_ b 0)) 24).

(** [bytes.TrimRight(b, "\x00")]: [b] without its trailing NUL bytes. *)
Fixpoint TrimRightNUL (b : list byte) : list byte :=
  match b with
  | [] => []
  | c :: rest =>
      match TrimRightNUL rest with
      | [] => if Byte.eqb c x00 then [] else [c]
      | kept => c :: kept
      end
  end.

(** [make([]byte, n)]: [n] zero bytes. *)
Definition zeros (n : nat) : list byte := repeat x00 n.

(** [copy(dst, src)] into a zeroed [dst] of [n] bytes: the copied prefix of
    [src] (at most [n] bytes), then the untouched zeros. *)
Definition copy_into_zeros (n : nat) (src : list byte) : list byte :=
  firstn n src ++ zeros (n - List.length (firstn n src)).

End Bytes.

(** ** Errors and the strings of [fmt] *)

Module Fmt.

(** A Go [error], by its message. *)
Definition error := string.

(** The verb [%d] on an [int]. *)
Definition itoa (n : Z) : string := NilZero.string_of_int (Z.to_int n).

(** The double-quote character (code 34). *)
Definition quote : string :=
  String (Ascii false true false false false true false false) EmptyString.

End Fmt.

(** ** [pkg/types/message.go]: messages and the frame codec *)

Module Types.
Import Bytes Fmt.

(** [type MessageType uint8] *)
Definition MessageType := byte.

Definition MessageTypeTunnelRegistration : MessageType := x01.
Definition MessageTypeDataForward : MessageType := x02.
Definition MessageTypeDataResponse : MessageType := x03.
Definition MessageTypeConnectionClose : MessageType := x04.
Definition MessageTypeHeartbeat : MessageType := x05.

Record Message := mkMessage {
  Type_ : MessageType;
  TunnelID : string;
  Payload : list byte;
  Timestamp : Z
}.

Record DataForwardPayload := mkDataForward {
  df_ConnectionID : string;
  df_RequestID : string;
  df_Data : list byte;
  df_Headers : gmap string string;
  df_Method : string;
  df_Path : string
}.

Record DataResponsePayload := mkDataResponse {
  dr_ConnectionID : string;
  dr_RequestID : string;
  dr_Data : list byte;
  dr_StatusCode : Z;
  dr_Headers : gmap string string
}.

Record TunnelRegistrationPayload := mkRegistration {
  reg_Protocol : string;
  reg_LocalPort : Z;
  reg_Subdomain : string;
  reg_PublicPort : option Z;
  reg_MaxConnections : Z
}.

Record HeartbeatPayload := mkHeartbeat {
  hb_Timestamp : Z;
  hb_ActiveConns : Z;
  hb_TotalRequests : Z
}.

(** [func (m *Message) Serialize() ([]byte, error)].  The error of the
    source is [nil] on every path, so the model returns the buffer. *)
Definition Serialize (m : Message) : list byte :=
  let payloadSize := len (Payload m) in
  let tunnelIDBytes := list_byte_of_string (TunnelID m) in
  let tunnelIDBytes :=
    if 16 <? len tunnelIDBytes then slice tunnelIDBytes 0 16
    else tunnelIDBytes in
  [Type_ m]
    ++ copy_into_zeros 16 tunnelIDBytes
    ++ PutUint32 (uint32 payloadSize)
    ++ Payload m.

(** [func (m *Message) Deserialize(data []byte) error].  The receiver is
    written field by field: [Type] and [TunnelID] are already assigned
    when the truncation check fails, and [Timestamp] is never touched. *)
Definition Deserialize (m : Message) (data : list byte)
  : Message * option error :=
  if len data <? 21 then
    (m, Some ("message too short: " ++ itoa (len data) ++ " bytes")%string)
  else
    let m1 := {| Type_ := at_ data 0;
                 TunnelID := string_of_list_byte (TrimRightNUL (slice data 1 17));
                 Payload := Payload m;
                 Timestamp := Timestamp m |} in
    let payloadSize := Uint32 (slice data 17 21) in
    if len data <? 21 + payloadSize then
      (m1, Some ("message truncated: expected " ++ itoa (21 + payloadSize)
                 ++ " bytes, got " ++ itoa (len data))%string)
    else
      ({| Type_ := Type_ m1;
          TunnelID := TunnelID m1;
          Payload := slice data 21 (21 + Z.to_nat payloadSize);
          Timestamp := Timestamp m |}, None).

(** [func NewMessage(msgType, tunnelID, payload) *Message], at time [now]. *)
Definition NewMessage (now : Z) (msgType : MessageType) (tunnelID : string)
    (payload : list byte) : Message :=
  {| Type_ := msgType; TunnelID := tunnelID; Payload := payload;
     Timestamp := now |}.

End Types.

(** ** [internal/protocol]: framed reads and writes on a connection *)

Module Protocol.
Import Bytes Fmt Types.

(** The two halves of a [net.Conn] as the agent sees them: the bytes the
    peer has sent and not yet been read (the peer closes after them), the
    chunks handed to [Write] so far, and whether [Write] still succeeds. *)
Record Conn := mkConn {
  inbound : list byte;
  outbound : list (list byte);
  writable : bool
}.

(** [io.ReadFull(r, buf)] with [len(buf) = n > 0]: the [n] next bytes, or
    [io.EOF] when the stream ends before the first byte and
    [io.ErrUnexpectedEOF] when it ends inside the buffer.  The bytes
    consumed are gone from the stream in every case. *)
Definition ReadFull (n : Z) (s : list byte) : (list byte + error) * list byte :=
  if len s =? 0 then (inr "EOF", [])
  else if len s <? n then (inr "unexpected EOF", [])
  else (inl (firstn (Z.to_nat n) s), skipn (Z.to_nat n) s).

(** [func (r *Reader) ReadMessage()], returning a message or an error, at time
    [now], on the inbound stream [s]; returns the rest of the stream. *)
Definition ReadMessage (now : Z) (s : list byte)
  : (Message + error) * list byte :=
  match ReadFull 21 s with
  | (inr err, s1) =>
      if String.eqb err "EOF" then (inr "connection closed by peer", s1)
      else (inr ("failed to read message header: " ++ err)%string, s1)
  | (inl header, s1) =>
      let msgType := at_ header 0 in
      let tunnelID := string_of_list_byte (slice header 1 17) in
      let tunnelID :=
        string_of_list_byte
          (slice (list_byte_of_string tunnelID) 0
                 (List.length (list_byte_of_string tunnelID) - 1)) in
      let payloadSize := Uint32 (slice header 17 21) in
      if 0 <? payloadSize then
        match ReadFull payloadSize s1 with
        | (inr err, s2) =>
            (inr ("failed to read message payload: " ++ err)%string, s2)
        | (inl payload, s2) =>
            (inl {| Type_ := msgType; TunnelID := tunnelID;
                    Payload := payload; Timestamp := now |}, s2)
        end
      else
        (inl {| Type_ := msgType; TunnelID := tunnelID;
                Payload := []; Timestamp := now |}, s1)
  end.

(** [func (w *Writer) WriteMessage(message *types.Message) error]:
    one [Write] of the serialized frame. *)
Definition WriteMessage (c : Conn) (message : Message) : Conn * option error :=
  let data := Serialize message in
  if writable c
  then ({| inbound := inbound c; outbound := outbound c ++ [data];
           writable := true |}, None)
  else (c, Some "failed to write message: write error").

(** The loop of [func (r *Reader) ReadMessageAsync(messageChan,
    errorChan)]: the messages sent on [messageChan], in order, and the
    error sent on [errorChan] if the loop ends on one ("connection closed
    by peer" ends it without).  [clock i] is the time of the [i]-th read;
    every round consumes bytes, and [None] says that [fuel] rounds did not
    reach the end of the stream. *)
Fixpoint ReadMessageAsync (fuel : nat) (clock : nat -> Z) (i : nat)
    (s : list byte) : option (list Message * option error) :=
  match fuel with
  | O => None
  | S fuel' =>
      match ReadMessage (clock i) s with
      | (inr err, _) =>
          if String.eqb err "connection closed by peer" then Some ([], None)
          else Some ([], Some err)
      | (inl message, s') =>
          match ReadMessageAsync fuel' clock (S i) s' with
          | None => None
          | Some (messages, err) => Some (message :: messages, err)
          end
      end
  end.

Section Json.
(** [json.Marshal] of [encoding/json], on the two payload records the
    agent sends from here. *)
Variable json_Marshal_Heartbeat : HeartbeatPayload -> list byte + error.
Variable json_Marshal_Registration :
  TunnelRegistrationPayload -> list byte + error.

(** [func NewHeartbeatMessage(tunnelID, payload)] of
    [pkg/types/message.go], at time [now]. *)
Definition NewHeartbeatMessage (now : Z) (tunnelID : string)
    (payload : HeartbeatPayload) : Message + error :=
  match json_Marshal_Heartbeat payload with
  | inr err => inr err
  | inl data => inl (NewMessage now MessageTypeHeartbeat tunnelID data)
  end.

(** [func NewTunnelRegistrationMessage(tunnelID, payload)] *)
Definition NewTunnelRegistrationMessage (now : Z) (tunnelID : string)
    (payload : TunnelRegistrationPayload) : Message + error :=
  match json_Marshal_Registration payload with
  | inr err => inr err
  | inl data =>
      inl (NewMessage now MessageTypeTunnelRegistration tunnelID data)
  end.

(** [func (w *Writer) WriteHeartbeat(tunnelID, payload) error] *)
Definition WriteHeartbeat (now : Z) (c : Conn) (tunnelID : string)
    (payload : HeartbeatPayload) : Conn * option error :=
  match NewHeartbeatMessage now tunnelID payload with
  | inr err =>
      (c, Some ("failed to create heartbeat message: " ++ err)%string)
  | inl message => WriteMessage c message
  end.

(** [func (w *Writer) WriteTunnelRegistration(tunnelID, payload) error] *)
Definition WriteTunnelRegistration (now : Z) (c : Conn) (tunnelID : string)
    (payload : TunnelRegistrationPayload) : Conn * option error :=
  match NewTunnelRegistrationMessage now tunnelID payload with
  | inr err =>
      (c, Some ("failed to create tunnel registration message: " ++ err)%string)
  | inl message => WriteMessage c message
  end.
End Json.

End Protocol.

(** ** [internal/config/config.go] *)

Module Config.

Definition Second : Z := 1000000000.

(** [type ConnectionConfig struct] *)
Record ConnectionConfig := mkConnectionConfig {
  PoolSize : Z;
  HeartbeatInterval : Z;
  ReconnectInterval : Z;
  MaxReconnectAttempts : Z;
  ConnectionTimeout : Z
}.

(** The [Connection] block of [func DefaultConfig() *Config]. *)
Definition DefaultConnection : ConnectionConfig :=
  {| PoolSize := 10;
     HeartbeatInterval := 30 * Second;
     ReconnectInterval := 5 * Second;
     MaxReconnectAttempts := 10;
     ConnectionTimeout := 30 * Second |}.

End Config.

(** ** [internal/client]: the connection pool *)

Module Pool.
Import Bytes Fmt Protocol.

(** What a Go call does: it returns, or it panics. *)
Inductive outcome (A : Type) :=
| Returned (a : A)
| Panicked (msg : string).
Arguments Returned {A} a.
Arguments Panicked {A} msg.

(** [int] on the 64-bit targets of the agent: the wrap-around of [+]. *)
Definition int_wrap (z : Z) : Z := (z + 2 ^ 63) mod 2 ^ 64 - 2 ^ 63.

(** [type Connection struct]; the socket, its reader and its writer play
    no part in the selection and are left out. *)
Record Connection := mkConnection {
  ID : string;
  IsHealthy : bool;
  LastUsed : Z;
  CreatedAt : Z
}.

(** [type ConnectionPool struct]: the slice of connections and the
    round-robin cursor. *)
Record ConnectionPool := mkPool {
  poolSize : Z;
  connections : list Connection;
  roundRobin : Z
}.

(** [(cp.roundRobin + 1) % len(cp.connections)]; Go's [%] truncates. *)
Definition nextIndex (cp : ConnectionPool) : Z :=
  Z.rem (int_wrap (roundRobin cp + 1)) (len (connections cp)).

(** [cp.connections[i]], which panics out of range. *)
Definition index (cp : ConnectionPool) (i : Z) : option Connection :=
  if i <? 0 then None else connections cp !! Z.to_nat i.

(** [func (cp *ConnectionPool) GetConnection()], at time [now]: the result
    and the pool after the call.  The cursor moves before the health check;
    the connection returned has its [LastUsed] set, in the pool too, since
    the pool holds pointers. *)
Definition GetConnection (now : Z) (cp : ConnectionPool)
  : outcome (Connection + error) * ConnectionPool :=
  if len (connections cp) =? 0 then
    (Returned (inr "no connections available in pool"), cp)
  else
    let i := nextIndex cp in
    let cp1 := {| poolSize := poolSize cp; connections := connections cp;
                  roundRobin := i |} in
    match index cp i with
    | None => (Panicked "index out of range", cp1)
    | Some conn =>
        if negb (IsHealthy conn) then
          (Returned (inr ("connection " ++ ID conn ++ " is not healthy")%string),
           cp1)
        else
          let conn' := {| ID := ID conn; IsHealthy := IsHealthy conn;
                          LastUsed := now; CreatedAt := CreatedAt conn |} in
          (Returned (inl conn'),
           {| poolSize := poolSize cp;
              connections := <[Z.to_nat i := conn']> (connections cp);
              roundRobin := i |})
    end.

(** [func (cp *ConnectionPool) GetHealthyConnections() []*Connection] *)
Definition GetHealthyConnections (cp : ConnectionPool) : list Connection :=
  List.filter IsHealthy (connections cp).

(** [func (cp *ConnectionPool) MarkConnectionUnhealthy(connID string)]:
    the first connection with that id. *)
Fixpoint markFirst (connID : string) (l : list Connection) : list Connection :=
  match l with
  | [] => []
  | c :: rest =>
      if String.eqb (ID c) connID
      then {| ID := ID c; IsHealthy := false; LastUsed := LastUsed c;
              CreatedAt := CreatedAt c |} :: rest
      else c :: markFirst connID rest
  end.

Definition MarkConnectionUnhealthy (connID : string) (cp : ConnectionPool)
  : ConnectionPool :=
  {| poolSize := poolSize cp;
     connections := markFirst connID (connections cp);
     roundRobin := roundRobin cp |}.

(** What [net.DialTimeout] and the TLS handshake of [createConnection]
    give; a success carries the three readings of the clock that the new
    [Connection] stores (for its id, [LastUsed] and [CreatedAt]). *)
Inductive Dialed :=
| DialError (err : error)
| HandshakeError (err : error)
| DialOK (tID tUsed tCreated : Z).

(** [func (cp *ConnectionPool) createConnection()] *)
Definition createConnection (d : Dialed) : Connection + error :=
  match d with
  | DialError err =>
      inr ("failed to establish TCP connection: " ++ err)%string
  | HandshakeError err => inr ("TLS handshake failed: " ++ err)%string
  | DialOK tID tUsed tCreated =>
      inl {| ID := ("conn_" ++ itoa tID)%string; IsHealthy := true;
             LastUsed := tUsed; CreatedAt := tCreated |}
  end.

(** [func (cp *ConnectionPool) addConnection(conn *Connection)] *)
Definition addConnection (conn : Connection) (cp : ConnectionPool)
  : ConnectionPool :=
  {| poolSize := poolSize cp; connections := connections cp ++ [conn];
     roundRobin := roundRobin cp |}.

(** The loop of [Initialize] from its [i]-th round on, [n] rounds left:
    a failed dial is logged and skipped. *)
Fixpoint InitializeFrom (dial : nat -> Dialed) (i n : nat)
    (cp : ConnectionPool) : ConnectionPool :=
  match n with
  | O => cp
  | S n' =>
      InitializeFrom dial (S i) n'
        match createConnection (dial i) with
        | inr _ => cp
        | inl conn => addConnection conn cp
        end
  end.

(** [func (cp *ConnectionPool) Initialize() error]; the error is [nil] on
    every path, and [dial i] is the outcome of the dial of round [i]. *)
Definition Initialize (dial : nat -> Dialed) (cp : ConnectionPool)
  : ConnectionPool :=
  InitializeFrom dial 0 (Z.to_nat (poolSize cp)) cp.

(** The index of the first connection with the id [connID]. *)
Fixpoint findFirst (connID : string) (l : list Connection) : option nat :=
  match l with
  | [] => None
  | c :: rest =>
      if String.eqb (ID c) connID then Some O
      else option_map S (findFirst connID rest)
  end.

(** [func (cp *ConnectionPool) ReplaceConnection(oldConnID string) error],
    with the outcome [d] of the dial it makes once the old connection is
    found. *)
Definition ReplaceConnection (d : Dialed) (oldConnID : string)
    (cp : ConnectionPool) : ConnectionPool * option error :=
  match findFirst oldConnID (connections cp) with
  | None =>
      (cp, Some ("connection " ++ oldConnID ++ " not found in pool")%string)
  | Some i =>
      match createConnection d with
      | inr err => (cp, Some err)
      | inl newConn =>
          ({| poolSize := poolSize cp;
              connections := <[i := newConn]> (connections cp);
              roundRobin := roundRobin cp |}, None)
      end
  end.

(** One round of the loop of [checkConnectionsHealth], on the [i]-th
    pointer of its snapshot: an unhealthy link is skipped, a healthy one
    is probed, and any error of the probe marks the link by its id. *)
Definition checkOne (probe_fails : nat -> bool) (cp : ConnectionPool)
    (i : nat) : ConnectionPool :=
  match connections cp !! i with
  | None => cp
  | Some conn =>
      if negb (IsHealthy conn) then cp
      else if probe_fails i then MarkConnectionUnhealthy (ID conn) cp
      else cp
  end.

(** [func (cp *ConnectionPool) checkConnectionsHealth()]; [probe_fails i]
    tells whether the one-byte read on the [i]-th link returns an error. *)
Definition checkConnectionsHealth (probe_fails : nat -> bool)
    (cp : ConnectionPool) : ConnectionPool :=
  fold_left (checkOne probe_fails)
    (seq 0 (List.length (connections cp))) cp.

(** The counting loop of [GetStats]: healthy and unhealthy links. *)
Definition countHealth (l : list Connection) : Z * Z :=
  fold_left
    (fun acc conn =>
       if IsHealthy conn then (fst acc + 1, snd acc)
       else (fst acc, snd acc + 1))
    l (0, 0).

(** The map that [func (cp *ConnectionPool) GetStats()] returns, by key. *)
Record Stats := mkStats {
  total_connections : Z;
  healthy_connections : Z;
  unhealthy_connections : Z;
  pool_size : Z;
  round_robin_index : Z
}.

Definition GetStats (cp : ConnectionPool) : Stats :=
  {| total_connections := len (connections cp);
     healthy_connections := fst (countHealth (connections cp));
     unhealthy_connections := snd (countHealth (connections cp));
     pool_size := poolSize cp;
     round_robin_index := roundRobin cp |}.

(** [func (cp *ConnectionPool) Close() error]: [cp.connections[:0]]. *)
Definition Close (cp : ConnectionPool) : ConnectionPool :=
  {| poolSize := poolSize cp; connections := []; roundRobin := roundRobin cp |}.

(** [func (cp *ConnectionPool) GetConnectionCount() int] *)
Definition GetConnectionCount (cp : ConnectionPool) : Z :=
  len (connections cp).

(** [func (cp *ConnectionPool) GetHealthyConnectionCount() int] *)
Definition GetHealthyConnectionCount (cp : ConnectionPool) : Z :=
  fold_left (fun healthy conn => if IsHealthy conn then healthy + 1 else healthy)
    (connections cp) 0.

End Pool.

(** ** [internal/client]: the data-plane client and the tunnel manager *)

Module Client.
Import Bytes Fmt Types Protocol Pool Config.

(** [type Tunnel struct] of the control-plane client. *)
Record Tunnel := mkTunnel {
  t_ID : string;
  t_Protocol : string;
  t_PublicURL : string;
  t_Status : string;
  t_Subdomain : string;
  t_LocalPort : Z
}.

(** What [net.DialTimeout] followed by the TLS handshake gives. *)
Inductive DialResult :=
| DialFailed (err : error)
| HandshakeFailed (err : error)
| Established (c : Conn).

(** [type DataPlaneClient struct].  The source sets and clears [conn],
    [reader], [writer] and [connected] together under its lock, so one
    optional link stands for the four; [dials] counts the dial attempts
    made so far. *)
Record DataPlaneClient := mkDataPlane {
  link : option Conn;
  dials : nat
}.

Definition connected (d : DataPlaneClient) : bool :=
  match link d with Some _ => true | None => false end.

(** The frames handed to the link so far. *)
Definition written (d : DataPlaneClient) : list (list byte) :=
  match link d with Some c => outbound c | None => [] end.

Inductive TunnelState :=
| TunnelStateInitializing
| TunnelStateCreating
| TunnelStateConnecting
| TunnelStateRegistering
| TunnelStateActive
| TunnelStateError
| TunnelStateDisconnected.

(** [type TunnelInfo struct]; the entries of the manager's map have their
    [Tunnel] set. *)
Record TunnelInfo := mkTunnelInfo {
  ti_Tunnel : Tunnel;
  ti_State : TunnelState;
  ti_Error : option error;
  ti_CreatedAt : Z;
  ti_UpdatedAt : Z
}.

Inductive Level := DebugLevel | InfoLevel | WarnLevel | ErrorLevel.

(** [type TunnelManager struct], with what its methods do to the world:
    the lines they log, the durations they sleep, the clock. *)
Record TunnelManager := mkManager {
  dataPlane : DataPlaneClient;
  connectionPool : ConnectionPool;
  config : ConnectionConfig;
  tunnels : gmap string TunnelInfo;
  logged : list (Level * string);
  slept : list Z;
  clock : Z
}.



(** What the [select] of the heartbeat task receives. *)
Inductive HeartbeatEvent :=
| HeartbeatCtxDone
| Tick (now : Z).

Section Environment.
(** The outcome of the n-th dial; [encoding/json] on the payloads. *)
Variable dialer : nat -> DialResult.
Variable json_Marshal_Heartbeat : HeartbeatPayload -> list byte + error.
Variable json_Marshal_Registration :
  TunnelRegistrationPayload -> list byte + error.
Variable json_Unmarshal_fails : MessageType -> list byte -> bool.

(** *** [data_plane.go] *)

(** [func (d *DataPlaneClient) Connect() error] *)
Definition Connect (d : DataPlaneClient) : DataPlaneClient * option error :=
  if connected d then (d, Some "already connected")
  else
    match dialer (dials d) with
    | DialFailed err =>
        ({| link := None; dials := S (dials d) |},
         Some ("failed to establish TCP connection: " ++ err)%string)
    | HandshakeFailed err =>
        ({| link := None; dials := S (dials d) |},
         Some ("TLS handshake failed: " ++ err)%string)
    | Established c =>
        ({| link := Some c; dials := S (dials d) |}, None)
    end.

(** [func (d *DataPlaneClient) Disconnect() error] *)
Definition Disconnect (d : DataPlaneClient) : DataPlaneClient :=
  if negb (connected d) then d
  else {| link := None; dials := dials d |}.

(** [func (d *DataPlaneClient) RegisterTunnel(tunnel *Tunnel) error] *)
Definition RegisterTunnel (now : Z) (d : DataPlaneClient) (tunnel : Tunnel)
  : DataPlaneClient * option error :=
  match link d with
  | None => (d, Some "not connected to server")
  | Some c =>
      let payload := {| reg_Protocol := t_Protocol tunnel;
                        reg_LocalPort := t_LocalPort tunnel;
                        reg_Subdomain := t_Subdomain tunnel;
                        reg_PublicPort := None;
                        reg_MaxConnections := 10 |} in
      let '(c', err) :=
        WriteTunnelRegistration json_Marshal_Registration now c
          (t_ID tunnel) payload in
      ({| link := Some c'; dials := dials d |}, err)
  end.

(** [func (d *DataPlaneClient) SendHeartbeat(tunnelID string,
    activeConns, totalRequests int) error], at time [now]. *)
Definition SendHeartbeat (now : Z) (d : DataPlaneClient) (tunnelID : string)
    (activeConns totalRequests : Z) : DataPlaneClient * option error :=
  match link d with
  | None => (d, Some "not connected to server")
  | Some c =>
      let payload := {| hb_Timestamp := now / Second;
                        hb_ActiveConns := activeConns;
                        hb_TotalRequests := totalRequests |} in
      let '(c', err) :=
        WriteHeartbeat json_Marshal_Heartbeat now c tunnelID payload in
      ({| link := Some c'; dials := dials d |}, err)
  end.

(** The goroutine of [func (d *DataPlaneClient) StartHeartbeat(tunnelID,
    interval)], on the events its [select] receives: a tick sends one
    heartbeat, and a failure to send is logged and the loop goes on. *)
Fixpoint StartHeartbeat (d : DataPlaneClient) (tunnelID : string)
    (events : list HeartbeatEvent) : DataPlaneClient :=
  match events with
  | [] => d
  | HeartbeatCtxDone :: _ => d
  | Tick now :: later =>
      let '(d', _) := SendHeartbeat now d tunnelID 0 0 in
      StartHeartbeat d' tunnelID later
  end.

(** *** [tunnel_manager.go] *)

Definition log (lvl : Level) (text : string) (tm : TunnelManager)
  : TunnelManager :=
  {| dataPlane := dataPlane tm; connectionPool := connectionPool tm;
     config := config tm; tunnels := tunnels tm;
     logged := logged tm ++ [(lvl, text)];
     slept := slept tm; clock := clock tm |}.

(** [time.Sleep(d)] *)
Definition Sleep (d : Z) (tm : TunnelManager) : TunnelManager :=
  {| dataPlane := dataPlane tm; connectionPool := connectionPool tm;
     config := config tm; tunnels := tunnels tm; logged := logged tm;
     slept := slept tm ++ [d]; clock := clock tm + d |}.

Definition withDataPlane (d : DataPlaneClient) (tm : TunnelManager)
  : TunnelManager :=
  {| dataPlane := d; connectionPool := connectionPool tm;
     config := config tm; tunnels := tunnels tm; logged := logged tm;
     slept := slept tm; clock := clock tm |}.

(** [func (tm *TunnelManager) updateTunnelState(tunnelInfo, state, err)],
    on the entry of the map that [tunnelInfo] points to. *)
Definition updateTunnelState (tunnelID : string) (state : TunnelState)
    (err : option error) (tm : TunnelManager) : TunnelManager :=
  let set (ti : TunnelInfo) :=
    {| ti_Tunnel := ti_Tunnel ti; ti_State := state; ti_Error := err;
       ti_CreatedAt := ti_CreatedAt ti; ti_UpdatedAt := clock tm |} in
  log InfoLevel "Tunnel state updated"
    {| dataPlane := dataPlane tm; connectionPool := connectionPool tm;
       config := config tm; tunnels := alter set tunnelID (tunnels tm);
       logged := logged tm; slept := slept tm; clock := clock tm |}.


(** The four handlers parse the payload and log what they find. *)
Definition handleParsed (message : Message) (onError onSuccess : string)
    (tm : TunnelManager) : TunnelManager :=
  if json_Unmarshal_fails (Type_ message) (Payload message)
  then log ErrorLevel onError tm
  else log DebugLevel onSuccess tm.

Definition handleDataForward (message : Message) :=
  handleParsed message "Failed to parse data forward payload"
    "Handling data forward".
Definition handleAcknowledge (message : Message) :=
  handleParsed message "Failed to parse acknowledge payload"
    "Received acknowledgment".
Definition handleHeartbeat (message : Message) :=
  handleParsed message "Failed to parse heartbeat payload"
    "Received heartbeat".
(** [handleError] logs the server's error at the error level. *)
Definition handleError (message : Message) (tm : TunnelManager) :=
  if json_Unmarshal_fails (Type_ message) (Payload message)
  then log ErrorLevel "Failed to parse error payload" tm
  else log ErrorLevel "Received error from server" tm.

(** [func (tm *TunnelManager) handleMessage(tunnelID, message)] *)
Definition handleMessage (tunnelID : string) (message : Message)
    (tm : TunnelManager) : TunnelManager :=
  let tm := log DebugLevel "Handling message" tm in
  match Type_ message with
  | x02 => handleDataForward message tm
  | x07 => handleAcknowledge message tm
  | x06 => handleError message tm
  | x05 => handleHeartbeat message tm
  | _ => log WarnLevel "Unknown message type" tm
  end.



(** [func (tm *TunnelManager) reconnectTunnel(tunnelID)] *)
Definition reconnectTunnel (tunnelID : string) (tm : TunnelManager)
  : TunnelManager :=
  let tm := log InfoLevel "Attempting to reconnect tunnel" tm in
  match tunnels tm !! tunnelID with
  | None => log ErrorLevel "Tunnel not found for reconnection" tm
  | Some tunnelInfo =>
      let tm := withDataPlane (Disconnect (dataPlane tm)) tm in
      let tm := Sleep (ReconnectInterval (config tm)) tm in
      match Connect (dataPlane tm) with
      | (d, Some err) =>
          updateTunnelState tunnelID TunnelStateError (Some err)
            (log ErrorLevel "Failed to reconnect" (withDataPlane d tm))
      | (d, None) =>
          match RegisterTunnel (clock tm) d (ti_Tunnel tunnelInfo) with
          | (d, Some err) =>
              updateTunnelState tunnelID TunnelStateError (Some err)
                (log ErrorLevel "Failed to re-register tunnel"
                   (withDataPlane d tm))
          | (d, None) =>
              log InfoLevel "Tunnel reconnected successfully"
                (updateTunnelState tunnelID TunnelStateActive None
                   (withDataPlane d tm))
          end
      end
  end.

End Environment.

(** [func (tm *TunnelManager) addTunnel(tunnelID, tunnelInfo)] *)
Definition addTunnel (tunnelID : string) (tunnelInfo : TunnelInfo)
    (tm : TunnelManager) : TunnelManager :=
  {| dataPlane := dataPlane tm; connectionPool := connectionPool tm;
     config := config tm; tunnels := <[tunnelID := tunnelInfo]> (tunnels tm);
     logged := logged tm; slept := slept tm; clock := clock tm |}.

(** [func (tm *TunnelManager) getTunnel(tunnelID string) *TunnelInfo] *)
Definition getTunnel (tunnelID : string) (tm : TunnelManager)
  : option TunnelInfo := tunnels tm !! tunnelID.

(** [func (tm *TunnelManager) StopTunnel(tunnelID string) error], with the
    error, if any, of the control plane's [DeleteTunnel]. *)
Definition StopTunnel (deleteError : option error) (tunnelID : string)
    (tm : TunnelManager) : TunnelManager * option error :=
  let tm := log InfoLevel "Stopping tunnel" tm in
  match getTunnel tunnelID tm with
  | None => (tm, Some ("tunnel " ++ tunnelID ++ " not found")%string)
  | Some _ =>
      let tm :=
        match deleteError with
        | Some _ =>
            log ErrorLevel "Failed to delete tunnel via control plane" tm
        | None => tm
        end in
      let tm := updateTunnelState tunnelID TunnelStateDisconnected None tm in
      ({| dataPlane := dataPlane tm; connectionPool := connectionPool tm;
          config := config tm; tunnels := delete tunnelID (tunnels tm);
          logged := logged tm; slept := slept tm; clock := clock tm |}, None)
  end.

End Client.

(** ** [internal/proxy/http_proxy.go]: the HTTP forwarder *)

Module Proxy.
Import Bytes Types Protocol Client Fmt.

(** [type HTTPProxy struct]; the tunnel is set. *)
Record HTTPProxy := mkHTTPProxy {
  localPort : Z;
  tunnel : Tunnel
}.

Definition StatusInternalServerError : Z := 500.
Definition StatusBadGateway : Z := 502.

(** [fmt.Sprintf(`{"error": "%s", "status": %d}`, message, statusCode)]:
    the raw literal has a space after each colon and after the comma. *)
Definition errorBody (message : string) (statusCode : Z) : string :=
  ("{" ++ quote ++ "error" ++ quote ++ ": " ++ quote ++ message ++ quote
       ++ ", " ++ quote ++ "status" ++ quote ++ ": " ++ itoa statusCode
       ++ "}")%string.

(** [func (hp *HTTPProxy) createErrorResponse(req, statusCode, message)] *)
Definition createErrorResponse (req : DataForwardPayload) (statusCode : Z)
    (message : string) : DataResponsePayload :=
  {| dr_ConnectionID := df_ConnectionID req;
     dr_RequestID := df_RequestID req;
     dr_Data := list_byte_of_string (errorBody message statusCode);
     dr_StatusCode := statusCode;
     dr_Headers := {[ "Content-Type" := "application/json" ]} |}.

(** [*http.Response] as the forwarder reads it: the status, the header
    (a list of values per name) and what [io.ReadAll(resp.Body)] gives. *)
Record Response := mkResponse {
  rs_StatusCode : Z;
  rs_Header : gmap string (list string);
  rs_Body : list byte + error
}.

Section LocalService.
(** [net/http]: the request type, [http.NewRequest], [Header.Set] on
    the request's header, and [hp.client.Do] against the local service. *)
Variable Request : Type.
Variable http_NewRequest : string -> string -> list byte -> Request + error.
Variable Header_Set : string -> string -> Request -> Request.
Variable client_Do : Request -> Response + error.

(** The headers put on the request before it is sent: those of the
    forwarded request, then the forwarding headers. *)
Definition withForwardingHeaders (hp : HTTPProxy) (req : DataForwardPayload)
    (httpReq : Request) : Request :=
  let httpReq := map_fold Header_Set httpReq (df_Headers req) in
  let httpReq := Header_Set "X-Forwarded-For" "127.0.0.1" httpReq in
  let httpReq := Header_Set "X-Forwarded-Proto" "http" httpReq in
  let httpReq :=
    match df_Headers req !! "Host" with
    | Some host => Header_Set "X-Forwarded-Host" host httpReq
    | None => httpReq
    end in
  Header_Set "X-ShipIt-Tunnel" (t_ID (tunnel hp)) httpReq.

(** [func (hp *HTTPProxy) HandleRequest(req)], with the pair the source
    returns: the response and the error. *)
Definition HandleRequest (hp : HTTPProxy) (req : DataForwardPayload)
  : option DataResponsePayload * option error :=
  let requestID := df_RequestID req in
  let connectionID := df_ConnectionID req in
  let localURL :=
    ("http://localhost:" ++ itoa (localPort hp) ++ df_Path req)%string in
  match http_NewRequest (df_Method req) localURL (df_Data req) with
  | inr _ =>
      (Some (createErrorResponse req StatusInternalServerError
               "Failed to create request"), None)
  | inl httpReq =>
      match client_Do (withForwardingHeaders hp req httpReq) with
      | inr _ =>
          (Some (createErrorResponse req StatusBadGateway
                   "Failed to connect to local service"), None)
      | inl resp =>
          match rs_Body resp with
          | inr _ =>
              (Some (createErrorResponse req StatusInternalServerError
                       "Failed to read response"), None)
          | inl body =>
              (Some {| dr_ConnectionID := connectionID;
                       dr_RequestID := requestID;
                       dr_Data := body;
                       dr_StatusCode := rs_StatusCode resp;
                       dr_Headers := omap head (rs_Header resp) |}, None)
          end
      end
  end.
End LocalService.

End Proxy.

(** ** [internal/proxy/tcp_proxy.go]: the table of TCP connections *)

Module TCP.
Import Bytes Fmt Client.

(** [type TCPConnection struct]; the two sockets are closed when [Closed]
    is set and play no other part in the table. *)
Record TCPConnection := mkTCPConnection {
  tc_ID : string;
  tc_CreatedAt : Z;
  tc_LastActivity : Z;
  tc_Closed : bool
}.

(** [type TCPProxy struct] *)
Record TCPProxy := mkTCPProxy {
  tp_localPort : Z;
  tp_tunnel : Tunnel;
  tp_connections : gmap string TCPConnection
}.

Definition withConnections (m : gmap string TCPConnection) (tp : TCPProxy)
  : TCPProxy :=
  {| tp_localPort := tp_localPort tp; tp_tunnel := tp_tunnel tp;
     tp_connections := m |}.




(** [func (tp *TCPProxy) CloseAllConnections()] *)
Definition CloseAllConnections (tp : TCPProxy) : TCPProxy :=
  withConnections ∅ tp.



End TCP.

(** * Properties *)

(** ** Facts about bytes, big-endian words and trimming *)

Module BytesFacts.
Import Bytes.

Lemma Z_of_byte_range (b : byte) : 0 <= Z_of_byte b < 256.
Proof.
  unfold Z_of_byte. pose proof (Byte.to_N_bounded b). lia.
Qed.

Lemma Z_of_byte_of_Z (v : Z) : Z_of_byte (byte_of_Z v) = v mod 256.
Proof.
  unfold Z_of_byte, byte_of_Z.
  assert (Hr : 0 <= v mod 256 < 256) by (apply Z.mod_pos_bound; lia).
  destruct (Byte.of_N (Z.to_N (v mod 256))) as [b|] eqn:E.
  - apply Byte.to_of_N in E. rewrite E. lia.
  - apply Byte.of_N_None_iff in E. lia.
Qed.

Lemma byte_of_Z_of_byte (b : byte) : byte_of_Z (Z_of_byte b) = b.
Proof.
  unfold byte_of_Z. pose proof (Z_of_byte_range b) as Hr.
  rewrite Z.mod_small by lia. unfold Z_of_byte.
  rewrite N2Z.id, Byte.of_to_N. reflexivity.
Qed.

(** Bit [n] of the byte cut out of [v] at offset [k] and put back there. *)
Lemma testbit_byte_at (v k n : Z) :
  0 <= k -> 0 <= n ->
  Z.testbit (Z.shiftl (Z.shiftr v k mod 256) k) n
  = (k <=? n) && (n <? k + 8) && Z.testbit v n.
Proof.
  intros Hk Hn.
  rewrite Z.shiftl_spec by lia.
  destruct (Z.leb_spec k n) as [Hle|Hlt]; cbn [andb].
  - change 256 with (2 ^ 8).
    destruct (Z.ltb_spec n (k + 8)) as [Hin|Hout]; cbn [andb].
    + rewrite Z.mod_pow2_bits_low by lia.
      rewrite Z.shiftr_spec by lia. f_equal. lia.
    + rewrite Z.mod_pow2_bits_high by lia. reflexivity.
  - apply Z.testbit_neg_r. lia.
Qed.

Lemma Uint32_PutUint32 (v : Z) :
  0 <= v < 2 ^ 32 -> Uint32 (PutUint32 v) = v.
Proof.
  intros Hv. unfold Uint32, PutUint32, at_. cbn [nth].
  rewrite !Z_of_byte_of_Z.
  apply Z.bits_inj'. intros n Hn.
  rewrite !Z.lor_spec.
  rewrite !testbit_byte_at by lia.
  replace (v mod 256) with (Z.shiftl (Z.shiftr v 0 mod 256) 0)
    by (rewrite Z.shiftl_0_r, Z.shiftr_0_r; reflexivity).
  rewrite testbit_byte_at by lia.
  destruct (Z.ltb_spec n 32) as [Hlo|Hhi].
  - destruct (Z.testbit v n); rewrite ?andb_true_r, ?andb_false_r;
      [|reflexivity].
    destruct (Z.ltb_spec n 8), (Z.ltb_spec n 16), (Z.ltb_spec n 24);
      destruct (Z.leb_spec 8 n), (Z.leb_spec 16 n), (Z.leb_spec 24 n);
      destruct (Z.leb_spec 0 n); cbn; try reflexivity; lia.
  - assert (Hz : Z.testbit v n = false).
    { destruct (Z.eq_dec v 0) as [->|Hne]; [apply Z.bits_0|].
      apply Z.bits_above_log2; [lia|].
      assert (Z.log2 v < 32) by (apply Z.log2_lt_pow2; lia). lia. }
    rewrite Hz, !andb_false_r. reflexivity.
Qed.

Lemma TrimRightNUL_zeros (n : nat) : TrimRightNUL (zeros n) = [].
Proof.
  induction n as [|n IH]; [reflexivity|].
  unfold zeros in *. cbn [repeat TrimRightNUL]. rewrite IH. reflexivity.
Qed.

Lemma TrimRightNUL_app_zeros (b : list byte) (n : nat) :
  TrimRightNUL (b ++ zeros n) = TrimRightNUL b.
Proof.
  induction b as [|c rest IH]; cbn [app TrimRightNUL].
  - apply TrimRightNUL_zeros.
  - rewrite IH. reflexivity.
Qed.

(** A slice that does not end in NUL is left as it is. *)
Lemma TrimRightNUL_id (b : list byte) :
  List.last b x01 <> x00 -> TrimRightNUL b = b.
Proof.
  induction b as [|c rest IH]; intros Hlast; [reflexivity|].
  cbn [TrimRightNUL]. destruct rest as [|d rest'].
  - cbn in *. destruct (Byte.eqb c x00) eqn:E; [|reflexivity].
    apply Byte.byte_dec_bl in E. congruence.
  - rewrite IH by exact Hlast. reflexivity.
Qed.

(** Whatever is trimmed, the result does not end in NUL. *)
Lemma TrimRightNUL_last (b : list byte) :
  List.last (TrimRightNUL b) x01 <> x00.
Proof.
  induction b as [|c rest IH]; cbn [TrimRightNUL]; [discriminate|].
  destruct (TrimRightNUL rest) as [|d kept] eqn:E.
  - destruct (Byte.eqb c x00) eqn:Ec; cbn; [discriminate|].
    intros ->. discriminate.
  - exact IH.
Qed.

Lemma len_app {A} (l1 l2 : list A) : len (l1 ++ l2) = len l1 + len l2.
Proof. unfold len. rewrite length_app. lia. Qed.

Lemma len_nonneg {A} (l : list A) : 0 <= len l.
Proof. unfold len. lia. Qed.

Lemma copy_into_zeros_length (n : nat) (src : list byte) :
  List.length (copy_into_zeros n src) = n.
Proof.
  unfold copy_into_zeros, zeros.
  rewrite length_app, repeat_length.
  pose proof (firstn_le_length n src). lia.
Qed.

Lemma copy_into_zeros_truncated (src : list byte) :
  copy_into_zeros 16 (if 16 <? len src then slice src 0 16 else src)
  = copy_into_zeros 16 src.
Proof.
  destruct (16 <? len src); [|reflexivity].
  unfold copy_into_zeros, slice. cbn [Nat.sub skipn].
  rewrite take_take, Nat.min_id. reflexivity.
Qed.

Lemma copy_into_zeros_short (n : nat) (src : list byte) :
  (List.length src <= n)%nat ->
  copy_into_zeros n src = src ++ zeros (n - List.length src).
Proof.
  intros Hle. unfold copy_into_zeros.
  rewrite firstn_all2 by lia. reflexivity.
Qed.

(** [b[lo:hi]] of a buffer laid out as [pre ++ mid ++ post]. *)
Lemma slice_middle (pre mid post : list byte) (lo hi : nat) :
  List.length pre = lo -> (lo + List.length mid = hi)%nat ->
  slice (pre ++ mid ++ post) lo hi = mid.
Proof.
  intros <- <-. unfold slice.
  replace (List.length pre + List.length mid - List.length pre)%nat
    with (List.length mid) by lia.
  rewrite drop_app_length, take_app_length. reflexivity.
Qed.

End BytesFacts.

(** ** The frame codec *)

Module CodecFacts.
Import Bytes Fmt Types Protocol BytesFacts.

(** The wire layout: a 21-byte header (type, a 16-byte tunnel id field,
    the big-endian payload size), then the payload. *)
Definition header (t : byte) (id16 : list byte) (size : Z) : list byte :=
  [t] ++ id16 ++ PutUint32 size.

Definition frame (t : byte) (id16 payload : list byte) : list byte :=
  header t id16 (len payload) ++ payload.

Lemma Serialize_frame (m : Message) :
  len (Payload m) < 2 ^ 32 ->
  Serialize m
  = frame (Type_ m) (copy_into_zeros 16 (list_byte_of_string (TunnelID m)))
          (Payload m).
Proof.
  intros Hp. unfold Serialize, frame, header, uint32. cbv zeta.
  rewrite copy_into_zeros_truncated.
  rewrite Z.mod_small by (pose proof (len_nonneg (Payload m)); lia).
  rewrite <- !app_assoc. reflexivity.
Qed.

Section Layout.
Variables (t : byte) (id16 : list byte) (size : Z) (tail : list byte).
Hypothesis H16 : List.length id16 = 16%nat.

Lemma header_length : List.length (header t id16 size) = 21%nat.
Proof. unfold header. rewrite !length_app, H16. reflexivity. Qed.

Lemma header_len : len (header t id16 size ++ tail) = 21 + len tail.
Proof. rewrite len_app. unfold len at 1. rewrite header_length. lia. Qed.

Lemma header_type : at_ (header t id16 size ++ tail) 0 = t.
Proof. reflexivity. Qed.

Lemma header_tunnel_id : slice (header t id16 size ++ tail) 1 17 = id16.
Proof.
  unfold header. rewrite <- !app_assoc.
  apply (slice_middle [t] id16); [reflexivity|].
  rewrite H16. reflexivity.
Qed.

Lemma header_size_field :
  slice (header t id16 size ++ tail) 17 21 = PutUint32 size.
Proof.
  unfold header. rewrite <- !app_assoc, (app_assoc [t] id16).
  apply slice_middle; rewrite ?length_app, ?H16; reflexivity.
Qed.

Lemma header_then :
  slice (header t id16 size ++ tail) 21 (21 + List.length tail) = tail.
Proof.
  rewrite <- (app_nil_r tail) at 1.
  apply slice_middle; [apply header_length | reflexivity].
Qed.
End Layout.

(** [io.ReadFull] on a stream that holds the wanted bytes. *)
Lemma ReadFull_app (want rest : list byte) :
  want <> [] -> ReadFull (len want) (want ++ rest) = (inl want, rest).
Proof.
  intros Hne. unfold ReadFull.
  pose proof (len_nonneg rest) as Hr.
  assert (0 < len want) by (destruct want; [congruence | unfold len; cbn; lia]).
  rewrite len_app.
  destruct (Z.eqb_spec (len want + len rest) 0) as [|_]; [lia|].
  destruct (Z.ltb_spec (len want + len rest) (len want)) as [|_]; [lia|].
  unfold len. rewrite Nat2Z.id, take_app_length, drop_app_length.
  reflexivity.
Qed.

(** [ReadMessage] once the 21 header bytes are there: the declared size
    alone decides how many bytes are read next. *)
Lemma ReadMessage_after_header (now : Z) (t : byte) (id16 : list byte)
    (size : Z) (s : list byte) :
  List.length id16 = 16%nat -> 0 <= size < 2 ^ 32 ->
  ReadMessage now (header t id16 size ++ s)
  = if 0 <? size then
      match ReadFull size s with
      | (inr err, s2) =>
          (inr ("failed to read message payload: " ++ err)%string, s2)
      | (inl payload, s2) =>
          (inl {| Type_ := t;
                  TunnelID := string_of_list_byte (firstn 15 id16);
                  Payload := payload; Timestamp := now |}, s2)
      end
    else
      (inl {| Type_ := t;
              TunnelID := string_of_list_byte (firstn 15 id16);
              Payload := []; Timestamp := now |}, s).
Proof.
  intros H16 Hsize. unfold ReadMessage.
  replace 21 with (len (header t id16 size))
    by (unfold len; rewrite header_length by exact H16; reflexivity).
  rewrite ReadFull_app by discriminate.
  rewrite <- (app_nil_r (header _ _ _)).
  rewrite header_type, header_tunnel_id, header_size_field by exact H16.
  rewrite Uint32_PutUint32 by lia.
  rewrite list_byte_of_string_of_list_byte.
  unfold slice at 1. rewrite H16. cbn [Nat.sub skipn].
  reflexivity.
Qed.

Section Decoders.
Variables (t : byte) (id16 payload : list byte).
Hypothesis H16 : List.length id16 = 16%nat.
Hypothesis Hsize : len payload < 2 ^ 32.

(** [Deserialize] on a whole frame: every field is recovered, the
    tunnel id with its trailing NUL bytes trimmed. *)
Lemma Deserialize_frame (m0 : Message) :
  Deserialize m0 (frame t id16 payload)
  = ({| Type_ := t;
        TunnelID := string_of_list_byte (TrimRightNUL id16);
        Payload := payload;
        Timestamp := Timestamp m0 |}, None).
Proof.
  pose proof (len_nonneg payload) as Hn.
  unfold Deserialize, frame.
  rewrite header_len by exact H16.
  destruct (Z.ltb_spec (21 + len payload) 21) as [Hbad|_]; [lia|].
  cbv zeta.
  rewrite header_size_field, Uint32_PutUint32 by (exact H16 || lia).
  rewrite Z.ltb_irrefl.
  cbn [Type_ TunnelID].
  rewrite header_type, header_tunnel_id by exact H16.
  unfold len at 2. rewrite Nat2Z.id, header_then by exact H16.
  reflexivity.
Qed.

(** [ReadMessage] on a stream that starts with a whole frame: it keeps
    the first 15 bytes of the tunnel id field, whatever they are. *)
Lemma ReadMessage_frame (now : Z) (rest : list byte) :
  ReadMessage now (frame t id16 payload ++ rest)
  = (inl {| Type_ := t;
            TunnelID := string_of_list_byte (firstn 15 id16);
            Payload := payload;
            Timestamp := now |}, rest).
Proof.
  pose proof (len_nonneg payload) as Hn.
  unfold frame. rewrite <- app_assoc.
  rewrite ReadMessage_after_header by (exact H16 || lia).
  destruct payload as [|b p'] eqn:Ep.
  - reflexivity.
  - rewrite <- Ep in *.
    destruct (Z.ltb_spec 0 (len payload)) as [_|Hbad];
      [|subst; unfold len in Hbad; cbn in Hbad; lia].
    rewrite ReadFull_app by (subst; discriminate).
    reflexivity.
Qed.
End Decoders.

(** The two decoders on what [Serialize] writes for a tunnel id of at most
    16 bytes: [Deserialize] trims the padding, [ReadMessage] cuts the last
    byte of the field and keeps the rest of the padding. *)
Lemma Deserialize_tunnel_id (m m0 : Message) :
  len (Payload m) < 2 ^ 32 ->
  TunnelID (fst (Deserialize m0 (Serialize m)))
  = string_of_list_byte
      (TrimRightNUL (firstn 16 (list_byte_of_string (TunnelID m)))).
Proof.
  intros Hsize. rewrite Serialize_frame by exact Hsize.
  rewrite Deserialize_frame by (apply copy_into_zeros_length || exact Hsize).
  cbn [fst TunnelID]. unfold copy_into_zeros.
  rewrite TrimRightNUL_app_zeros. reflexivity.
Qed.

Lemma ReadMessage_tunnel_id (m : Message) (now : Z) (rest : list byte) :
  len (Payload m) < 2 ^ 32 ->
  ReadMessage now (Serialize m ++ rest)
  = (inl {| Type_ := Type_ m;
            TunnelID :=
              string_of_list_byte
                (firstn 15 (copy_into_zeros 16
                              (list_byte_of_string (TunnelID m))));
            Payload := Payload m;
            Timestamp := now |}, rest).
Proof.
  intros Hsize. rewrite Serialize_frame by exact Hsize.
  apply ReadMessage_frame; [apply copy_into_zeros_length | exact Hsize].
Qed.

(** A frame of [n] zero bytes, for any [n] that fits the size field. *)
Lemma ReadMessage_zeros_frame (t : byte) (now n : Z) :
  0 < n < 2 ^ 32 ->
  Uint32 (slice (frame t (zeros 16) (zeros (Z.to_nat n))) 17 21) = n
  /\ ReadMessage now (frame t (zeros 16) (zeros (Z.to_nat n)))
     = (inl {| Type_ := t;
               TunnelID := string_of_list_byte (zeros 15);
               Payload := zeros (Z.to_nat n); Timestamp := now |}, []).
Proof.
  intros Hn.
  assert (Hlen : len (zeros (Z.to_nat n)) = n).
  { unfold len, zeros. rewrite repeat_length. lia. }
  split.
  - unfold frame.
    rewrite header_size_field by reflexivity.
    rewrite Uint32_PutUint32 by lia.
    exact Hlen.
  - rewrite <- (app_nil_r (frame _ _ _)).
    apply ReadMessage_frame; [reflexivity | lia].
Qed.

End CodecFacts.

(** ** Claims about the frame codec *)

Import Bytes Fmt Types Protocol.

(** C1.  Frame round trip: for a message whose tunnel id has at most 16
    bytes and does not end in NUL, and whose payload is shorter than 2^32
    bytes, [Deserialize] on the bytes of [Serialize] succeeds and gives
    back the type, the tunnel id and the payload, byte for byte (the
    timestamp is not on the wire: the receiver keeps its own). *)
Theorem frame_round_trip (m m0 : Message) :
  (List.length (list_byte_of_string (TunnelID m)) <= 16)%nat ->
  List.last (list_byte_of_string (TunnelID m)) x01 <> x00 ->
  len (Payload m) < 2 ^ 32 ->
  Deserialize m0 (Serialize m)
  = ({| Type_ := Type_ m; TunnelID := TunnelID m; Payload := Payload m;
        Timestamp := Timestamp m0 |}, None).
Proof.
  intros Hid Hnul Hsize.
  rewrite CodecFacts.Serialize_frame by exact Hsize.
  rewrite CodecFacts.Deserialize_frame
    by (apply BytesFacts.copy_into_zeros_length || exact Hsize).
  rewrite BytesFacts.copy_into_zeros_short by exact Hid.
  rewrite BytesFacts.TrimRightNUL_app_zeros.
  rewrite BytesFacts.TrimRightNUL_id by exact Hnul.
  rewrite string_of_list_byte_of_string. reflexivity.
Qed.

Definition sample_message : Message :=
  {| Type_ := MessageTypeDataForward; TunnelID := "tunnel-1";
     Payload := [x68; x69]; Timestamp := 1704067200 |}.

Definition blank_message : Message :=
  {| Type_ := x00; TunnelID := EmptyString; Payload := []; Timestamp := 0 |}.

Lemma frame_round_trip_witness :
  Deserialize blank_message (Serialize sample_message)
  = ({| Type_ := MessageTypeDataForward; TunnelID := "tunnel-1";
        Payload := [x68; x69]; Timestamp := 0 |}, None).
Proof.
  apply (frame_round_trip sample_message blank_message).
  - cbn. lia.
  - cbn. discriminate.
  - reflexivity.
Defined.

(** C3.  On the frame that carries the tunnel id "abc" (three bytes, then
    thirteen NUL bytes), [Deserialize] recovers "abc" but [ReadMessage]
    returns the first fifteen bytes of the field, twelve NUL bytes
    included: it drops one byte instead of trimming the padding. *)
Theorem reader_keeps_tunnel_id_padding :
  let wire := Serialize (NewMessage 0 MessageTypeHeartbeat "abc" []) in
  TunnelID (fst (Deserialize blank_message wire)) = "abc"
  /\ fst (ReadMessage 0 wire)
     = inl {| Type_ := MessageTypeHeartbeat;
              TunnelID := string_of_list_byte ([x61; x62; x63] ++ zeros 12);
              Payload := []; Timestamp := 0 |}
  /\ string_of_list_byte ([x61; x62; x63] ++ zeros 12) <> "abc".
Proof.
  cbv zeta. split; [reflexivity|]. split; [reflexivity|]. discriminate.
Qed.

(** The frame limit of the specification, 16 MiB.  The source declares no
    such constant; it is here to state the property. *)
Definition MAX_FRAME : Z := 16 * 1024 * 1024.

(** C4, as the code has it.  [ReadMessage] puts no limit on the declared
    payload size: after a header that declares [size] bytes, with
    [0 < size < 2^32] and so also above [MAX_FRAME], it reads [size] bytes
    and returns the frame when the stream holds them, and fails with a
    payload read error, the stream consumed, when it ends before. *)
Theorem ReadMessage_has_no_frame_limit (now : Z) (t : byte)
    (id16 : list byte) (size : Z) (s : list byte) :
  List.length id16 = 16%nat -> 0 < size < 2 ^ 32 ->
  ReadMessage now (CodecFacts.header t id16 size ++ s)
  = if len s <? size then
      (inr (String.append "failed to read message payload: "
              (if len s =? 0 then "EOF" else "unexpected EOF")), [])
    else
      (inl {| Type_ := t;
              TunnelID := string_of_list_byte (firstn 15 id16);
              Payload := firstn (Z.to_nat size) s;
              Timestamp := now |}, skipn (Z.to_nat size) s).
Proof.
  intros H16 Hsize.
  rewrite CodecFacts.ReadMessage_after_header by (exact H16 || lia).
  destruct (Z.ltb_spec 0 size) as [_|]; [|lia].
  unfold ReadFull. pose proof (BytesFacts.len_nonneg s).
  destruct (Z.eqb_spec (len s) 0) as [Hz|Hnz].
  - destruct (Z.ltb_spec (len s) size); [reflexivity|lia].
  - destruct (Z.ltb_spec (len s) size); reflexivity.
Qed.

Lemma ReadMessage_has_no_frame_limit_witness :
  ReadMessage 7 (CodecFacts.header x02 (zeros 16) 2 ++ [x68; x69; x05])
  = (inl {| Type_ := x02; TunnelID := string_of_list_byte (zeros 15);
            Payload := [x68; x69]; Timestamp := 7 |}, [x05])
  /\ ReadMessage 7 (CodecFacts.header x02 (zeros 16) (MAX_FRAME + 1) ++ [x68])
     = (inr "failed to read message payload: unexpected EOF", []).
Proof.
  split.
  - apply (ReadMessage_has_no_frame_limit 7 x02 (zeros 16) 2 [x68; x69; x05]).
    + reflexivity.
    + lia.
  - apply (ReadMessage_has_no_frame_limit 7 x02 (zeros 16) (MAX_FRAME + 1)
             [x68]).
    + reflexivity.
    + unfold MAX_FRAME. lia.
Defined.

(** C4, as stated, fails: a frame whose header declares [MAX_FRAME + 1]
    payload bytes, followed by that many bytes, is decoded without error. *)
Lemma oversized_frame_is_accepted :
  let payload := zeros (Z.to_nat (MAX_FRAME + 1)) in
  let wire := CodecFacts.frame MessageTypeDataForward (zeros 16) payload in
  MAX_FRAME < Uint32 (slice wire 17 21)
  /\ ReadMessage 0 wire
     = (inl {| Type_ := MessageTypeDataForward;
               TunnelID := string_of_list_byte (zeros 15);
               Payload := payload; Timestamp := 0 |}, []).
Proof.
  assert (Hn : 0 < MAX_FRAME + 1 < 2 ^ 32) by (split; reflexivity).
  destruct (CodecFacts.ReadMessage_zeros_frame MessageTypeDataForward
              0 (MAX_FRAME + 1) Hn) as [Hsize Hread].
  cbv zeta. split.
  - rewrite Hsize. apply Z.lt_succ_diag_r.
  - exact Hread.
Qed.

(** ** The connection pool *)

Module PoolFacts.
Import Bytes Pool.

(** [conn.LastUsed = time.Now()] *)
Definition touch (now : Z) (conn : Connection) : Connection :=
  {| ID := ID conn; IsHealthy := IsHealthy conn; LastUsed := now;
     CreatedAt := CreatedAt conn |}.

(** The pool with its cursor moved. *)
Definition advance (cp : ConnectionPool) : ConnectionPool :=
  {| poolSize := poolSize cp; connections := connections cp;
     roundRobin := nextIndex cp |}.

Lemma int_wrap_small (z : Z) : - 2 ^ 63 <= z < 2 ^ 63 -> int_wrap z = z.
Proof. intros Hz. unfold int_wrap. rewrite Z.mod_small; lia. Qed.

(** From a cursor that is a valid [int] index the next one is the
    successor modulo the number of connections. *)
Lemma nextIndex_mod (cp : ConnectionPool) :
  0 <= roundRobin cp < 2 ^ 63 - 1 -> connections cp <> [] ->
  nextIndex cp = (roundRobin cp + 1) mod len (connections cp)
  /\ 0 <= nextIndex cp < len (connections cp).
Proof.
  intros Hrr Hne. unfold nextIndex.
  assert (0 < len (connections cp)) as Hlen.
  { destruct (connections cp); [congruence | unfold len; cbn; lia]. }
  rewrite int_wrap_small by lia.
  rewrite Z.rem_mod_nonneg by lia.
  split; [reflexivity | apply Z.mod_pos_bound; lia].
Qed.

Lemma index_in_range (cp : ConnectionPool) (i : Z) :
  0 <= i < len (connections cp) -> exists c, index cp i = Some c.
Proof.
  intros Hi. unfold index.
  destruct (Z.ltb_spec i 0); [lia|].
  apply lookup_lt_is_Some_2. unfold len in Hi. lia.
Qed.

(** The three ways [GetConnection] ends once the pool is not empty. *)
Lemma GetConnection_selected (now : Z) (cp : ConnectionPool) (c : Connection) :
  index cp (nextIndex cp) = Some c ->
  GetConnection now cp
  = if IsHealthy c then
      (Returned (inl (touch now c)),
       {| poolSize := poolSize cp;
          connections := <[Z.to_nat (nextIndex cp) := touch now c]> (connections cp);
          roundRobin := nextIndex cp |})
    else
      (Returned (inr ("connection " ++ ID c ++ " is not healthy")%string),
       advance cp).
Proof.
  intros Hsel. unfold GetConnection.
  assert (Hne : (len (connections cp) =? 0) = false).
  { unfold index in Hsel. destruct (nextIndex cp <? 0); [discriminate|].
    apply lookup_lt_Some in Hsel. apply Z.eqb_neq. unfold len. lia. }
  rewrite Hne. cbv zeta. rewrite Hsel.
  destruct (IsHealthy c) eqn:Hh; cbn [negb]; unfold touch; rewrite ?Hh;
    reflexivity.
Qed.

Lemma GetConnection_empty (now : Z) (cp : ConnectionPool) :
  connections cp = [] ->
  GetConnection now cp
  = (Returned (inr "no connections available in pool"), cp).
Proof. intros He. unfold GetConnection. rewrite He. reflexivity. Qed.

(** Whatever is returned was selected, and was healthy. *)
Lemma GetConnection_returned (now : Z) (cp cp' : ConnectionPool)
    (conn : Connection) :
  GetConnection now cp = (Returned (inl conn), cp') ->
  exists c, index cp (nextIndex cp) = Some c /\ IsHealthy c = true
            /\ conn = touch now c
            /\ connections cp' !! Z.to_nat (nextIndex cp) = Some conn.
Proof.
  intros Hget.
  destruct (index cp (nextIndex cp)) as [c|] eqn:Hsel.
  - rewrite (GetConnection_selected now cp c Hsel) in Hget.
    destruct (IsHealthy c) eqn:Hh; [|discriminate].
    injection Hget as <- <-. exists c. repeat split; try assumption.
    cbn [connections]. apply list_lookup_insert_eq.
    unfold index in Hsel. destruct (nextIndex cp <? 0); [discriminate|].
    apply lookup_lt_Some in Hsel. exact Hsel.
  - unfold GetConnection in Hget.
    destruct (len (connections cp) =? 0); [discriminate|].
    cbv zeta in Hget. rewrite Hsel in Hget. discriminate.
Qed.

(** The cursor stays a valid index: what [GetConnection] needs of it
    holds again after the call. *)
Lemma GetConnection_cursor (now : Z) (cp : ConnectionPool) :
  0 <= roundRobin cp < 2 ^ 63 - 1 -> len (connections cp) < 2 ^ 63 ->
  0 <= roundRobin (snd (GetConnection now cp)) < 2 ^ 63 - 1.
Proof.
  intros Hrr Hlen.
  destruct (connections cp) as [|c0 rest] eqn:Hc.
  - rewrite GetConnection_empty by exact Hc. exact Hrr.
  - assert (Hne : connections cp <> []) by (rewrite Hc; discriminate).
    destruct (nextIndex_mod cp Hrr Hne) as [_ Hrange].
    destruct (index_in_range cp _ Hrange) as [c Hsel].
    rewrite (GetConnection_selected now cp c Hsel).
    rewrite Hc in Hrange.
    destruct (IsHealthy c); cbn [snd roundRobin advance]; lia.
Qed.

End PoolFacts.

(** ** Claims about the connection pool *)

Import Pool.

(** C5, as the code has it.  [GetConnection] selects round-robin over all
    the links of the pool, healthy or not.  With a cursor that is a valid
    index and a pool that is not empty, it moves the cursor to the next
    position modulo the number of links; it returns the link there when
    that link is healthy, and fails with "connection <id> is not healthy"
    when it is not, whatever the health of the other links.  On an empty
    pool it fails with "no connections available in pool". *)
Theorem acquire_selects_over_all_links (now : Z) (cp : ConnectionPool) :
  0 <= roundRobin cp < 2 ^ 63 - 1 ->
  (connections cp = [] ->
   GetConnection now cp
   = (Returned (inr "no connections available in pool"), cp))
  /\ (connections cp <> [] ->
      let i := (roundRobin cp + 1) mod len (connections cp) in
      exists c,
        connections cp !! Z.to_nat i = Some c
        /\ roundRobin (snd (GetConnection now cp)) = i
        /\ fst (GetConnection now cp)
           = if IsHealthy c
             then Returned (inl (PoolFacts.touch now c))
             else Returned
                    (inr ("connection " ++ ID c ++ " is not healthy")%string)).
Proof.
  intros Hrr. split.
  - apply PoolFacts.GetConnection_empty.
  - intros Hne. cbv zeta.
    destruct (PoolFacts.nextIndex_mod cp Hrr Hne) as [Hi Hrange].
    destruct (PoolFacts.index_in_range cp _ Hrange) as [c Hsel].
    exists c. rewrite <- Hi.
    rewrite (PoolFacts.GetConnection_selected now cp c Hsel).
    unfold index in Hsel.
    destruct (Z.ltb_spec (nextIndex cp) 0); [lia|].
    split; [exact Hsel|].
    destruct (IsHealthy c); split; reflexivity.
Qed.

Definition link_a : Connection :=
  {| ID := "conn_1"; IsHealthy := true; LastUsed := 0; CreatedAt := 0 |}.
Definition link_b : Connection :=
  {| ID := "conn_2"; IsHealthy := false; LastUsed := 0; CreatedAt := 0 |}.

(** A pool of two links, the second one unhealthy, as [Initialize] followed
    by one [MarkConnectionUnhealthy] leaves it. *)
Definition pool_one_down : ConnectionPool :=
  {| poolSize := 2; connections := [link_a; link_b]; roundRobin := 0 |}.

Lemma acquire_selects_over_all_links_witness :
  exists c,
    connections pool_one_down !! 1%nat = Some c
    /\ roundRobin (snd (GetConnection 5 pool_one_down)) = 1
    /\ fst (GetConnection 5 pool_one_down)
       = if IsHealthy c
         then Returned (inl (PoolFacts.touch 5 c))
         else Returned (inr ("connection " ++ ID c ++ " is not healthy")%string).
Proof.
  assert (Hrr : 0 <= roundRobin pool_one_down < 2 ^ 63 - 1) by (cbn; lia).
  assert (Hne : connections pool_one_down <> []) by discriminate.
  exact (proj2 (acquire_selects_over_all_links 5 pool_one_down Hrr) Hne).
Defined.

(** C5, as stated, fails: the pool holds a healthy link, and
    [GetConnection] fails because the cursor lands on the unhealthy one. *)
Lemma acquire_fails_beside_healthy_link :
  link_a ∈ connections pool_one_down
  /\ IsHealthy link_a = true
  /\ GetHealthyConnections pool_one_down = [link_a]
  /\ fst (GetConnection 5 pool_one_down)
     = Returned (inr "connection conn_2 is not healthy").
Proof.
  split; [apply list_elem_of_here|].
  repeat split; reflexivity.
Qed.

(** C6.  Pool health: a link that [GetConnection] returns has its healthy
    flag set at that moment, and is the link at the cursor of the pool
    after the call; when the link that the round-robin step selects is
    unhealthy, the call returns an error and no link. *)
Theorem acquire_never_returns_unhealthy (now : Z) (cp : ConnectionPool) :
  (forall conn cp',
      GetConnection now cp = (Returned (inl conn), cp') ->
      IsHealthy conn = true
      /\ connections cp' !! Z.to_nat (roundRobin cp') = Some conn)
  /\ (forall c,
         index cp (nextIndex cp) = Some c -> IsHealthy c = false ->
         GetConnection now cp
         = (Returned (inr ("connection " ++ ID c ++ " is not healthy")%string),
            PoolFacts.advance cp)).
Proof.
  split.
  - intros conn cp' Hget.
    pose proof Hget as Hcursor.
    destruct (PoolFacts.GetConnection_returned now cp cp' conn Hget)
      as (c & Hsel & Hh & -> & Hlook).
    split; [exact Hh|].
    rewrite (PoolFacts.GetConnection_selected now cp c Hsel), Hh in Hcursor.
    injection Hcursor as <-. cbn [roundRobin connections] in *. exact Hlook.
  - intros c Hsel Hh.
    rewrite (PoolFacts.GetConnection_selected now cp c Hsel), Hh.
    reflexivity.
Qed.

Definition pool_all_up : ConnectionPool :=
  {| poolSize := 2; connections := [link_a; link_a]; roundRobin := 0 |}.

Lemma acquire_never_returns_unhealthy_witness :
  IsHealthy (PoolFacts.touch 5 link_a) = true
  /\ GetConnection 5 pool_one_down
     = (Returned (inr "connection conn_2 is not healthy"),
        PoolFacts.advance pool_one_down).
Proof.
  split.
  - apply (proj1 (acquire_never_returns_unhealthy 5 pool_all_up)
             (PoolFacts.touch 5 link_a)
             {| poolSize := 2;
                connections := [link_a; PoolFacts.touch 5 link_a];
                roundRobin := 1 |}).
    reflexivity.
  - apply (proj2 (acquire_never_returns_unhealthy 5 pool_one_down) link_b);
      reflexivity.
Defined.

(** ** Claims about the HTTP forwarder *)

Import Client Proxy.

(** C2.  Whatever the local service does, [HandleRequest] returns one
    response and a nil error, and the response carries the request id and
    the connection id of the [DataForward] it answers. *)
Theorem forwarder_always_answers (Request : Type)
    (http_NewRequest : string -> string -> list byte -> Request + error)
    (Header_Set : string -> string -> Request -> Request)
    (client_Do : Request -> Response + error)
    (hp : HTTPProxy) (req : DataForwardPayload) :
  exists resp,
    HandleRequest Request http_NewRequest Header_Set client_Do hp req
    = (Some resp, None)
    /\ dr_RequestID resp = df_RequestID req
    /\ dr_ConnectionID resp = df_ConnectionID req.
Proof.
  unfold HandleRequest. cbv zeta.
  destruct (http_NewRequest _ _ _) as [httpReq|e1].
  - destruct (client_Do _) as [resp|e2].
    + destruct (rs_Body resp) as [body|e3]; eexists; repeat split.
    + eexists; repeat split.
  - eexists; repeat split.
Qed.

(** The body of the synthetic 502 as the forwarder sends it, and as the
    specification writes it (no space after the colons and the comma). *)
Definition body_502_sent : string :=
  ("{" ++ quote ++ "error" ++ quote ++ ": " ++ quote
       ++ "Failed to connect to local service" ++ quote
       ++ ", " ++ quote ++ "status" ++ quote ++ ": 502}")%string.

Definition body_502_compact : string :=
  ("{" ++ quote ++ "error" ++ quote ++ ":" ++ quote
       ++ "Failed to connect to local service" ++ quote
       ++ "," ++ quote ++ "status" ++ quote ++ ":502}")%string.

(** C8, as the code has it.  When the request to the local service fails
    in [client.Do], the dial failure among its causes, [HandleRequest]
    answers with status 502, the header Content-Type: application/json and
    the body [body_502_sent], which has a space after each colon and after
    the comma. *)
Theorem dial_failure_gives_502 (Request : Type)
    (http_NewRequest : string -> string -> list byte -> Request + error)
    (Header_Set : string -> string -> Request -> Request)
    (client_Do : Request -> Response + error)
    (hp : HTTPProxy) (req : DataForwardPayload) (httpReq : Request)
    (err : error) :
  http_NewRequest (df_Method req)
    ("http://localhost:" ++ itoa (localPort hp) ++ df_Path req)%string
    (df_Data req) = inl httpReq ->
  client_Do (withForwardingHeaders Request Header_Set hp req httpReq) = inr err ->
  HandleRequest Request http_NewRequest Header_Set client_Do hp req
  = (Some {| dr_ConnectionID := df_ConnectionID req;
             dr_RequestID := df_RequestID req;
             dr_Data := list_byte_of_string body_502_sent;
             dr_StatusCode := 502;
             dr_Headers := {[ "Content-Type" := "application/json" ]} |},
     None).
Proof.
  intros Hnew Hdo. unfold HandleRequest. cbv zeta.
  rewrite Hnew, Hdo. reflexivity.
Qed.

(** A forwarder on port 3000 whose local service refuses the connection,
    and the request of the specification's second scenario. *)
Definition proxy_3000 : HTTPProxy :=
  {| localPort := 3000;
     tunnel := {| t_ID := "test-tunnel"; t_Protocol := "http";
                  t_PublicURL := EmptyString; t_Status := EmptyString; t_Subdomain := EmptyString;
                  t_LocalPort := 3000 |} |}.

Definition request_456 : DataForwardPayload :=
  {| df_ConnectionID := "conn-123"; df_RequestID := "req-456";
     df_Data := []; df_Headers := {[ "Host" := "t.example" ]};
     df_Method := "GET"; df_Path := "/api/test" |}.

Definition new_request_ok (method url : string) (body : list byte)
  : (string * string) + error := inl (method, url).
Definition header_set_ignored (key value : string) (r : string * string)
  : string * string := r.
Definition connection_refused (r : string * string) : Response + error :=
  inr "dial tcp 127.0.0.1:3000: connect: connection refused".

Lemma dial_failure_gives_502_witness :
  HandleRequest (string * string) new_request_ok header_set_ignored
    connection_refused proxy_3000 request_456
  = (Some {| dr_ConnectionID := "conn-123";
             dr_RequestID := "req-456";
             dr_Data := list_byte_of_string body_502_sent;
             dr_StatusCode := 502;
             dr_Headers := {[ "Content-Type" := "application/json" ]} |},
     None).
Proof.
  apply (dial_failure_gives_502 (string * string) new_request_ok
           header_set_ignored connection_refused proxy_3000 request_456
           ("GET", "http://localhost:3000/api/test")
           "dial tcp 127.0.0.1:3000: connect: connection refused").
  - reflexivity.
  - reflexivity.
Defined.

(** C8, as stated, fails: on a refused connection the status is 502 and
    the content type is JSON, but the body is not the compact text. *)
Lemma body_502_is_not_compact :
  exists resp,
    HandleRequest (string * string) new_request_ok header_set_ignored
      connection_refused proxy_3000 request_456 = (Some resp, None)
    /\ dr_StatusCode resp = 502
    /\ dr_Headers resp !! "Content-Type" = Some "application/json"
    /\ dr_Data resp <> list_byte_of_string body_502_compact.
Proof.
  eexists. split; [reflexivity|]. split; [reflexivity|].
  split; [reflexivity|].
  intros Heq. apply (f_equal (@List.length byte)) in Heq.
  vm_compute in Heq. discriminate.
Qed.

(** ** The heartbeat task *)

Module HeartbeatFacts.
Import Bytes Fmt Types Protocol Client Config.

Section Heartbeat.
Variable json_Marshal_Heartbeat : HeartbeatPayload -> list byte + error.
Variable tunnelID : string.

(** One [SendHeartbeat] hands at most one frame to the link, and that frame
    carries the counters it was called with. *)
Lemma SendHeartbeat_written (now : Z) (d : DataPlaneClient)
    (activeConns totalRequests : Z) :
  let d' := fst (SendHeartbeat json_Marshal_Heartbeat now d tunnelID
                   activeConns totalRequests) in
  written d' = written d
  \/ exists data,
       json_Marshal_Heartbeat
         {| hb_Timestamp := now / Second; hb_ActiveConns := activeConns;
            hb_TotalRequests := totalRequests |} = inl data
       /\ written d'
          = written d
            ++ [Serialize (NewMessage now MessageTypeHeartbeat tunnelID data)].
Proof.
  cbv zeta. destruct d as [[c|] n]; [|left; reflexivity].
  unfold SendHeartbeat, written, WriteHeartbeat, NewHeartbeatMessage.
  cbn [link dials].
  destruct (json_Marshal_Heartbeat _) as [data|e] eqn:Hm; [|left; reflexivity].
  unfold WriteMessage. destruct (writable c).
  - right. exists data. split; [reflexivity | reflexivity].
  - left. reflexivity.
Qed.

(** On a link that takes the writes, every tick before the cancellation
    sends its frame. *)
Lemma StartHeartbeat_sends (now : Z) (c : Conn) (n : nat) (data : list byte) :
  writable c = true ->
  json_Marshal_Heartbeat
    {| hb_Timestamp := now / Second; hb_ActiveConns := 0;
       hb_TotalRequests := 0 |} = inl data ->
  written (StartHeartbeat json_Marshal_Heartbeat
             {| link := Some c; dials := n |} tunnelID [Tick now])
  = outbound c ++ [Serialize (NewMessage now MessageTypeHeartbeat tunnelID data)].
Proof.
  intros Hw Hm. cbn. unfold WriteHeartbeat, NewHeartbeatMessage.
  rewrite Hm. unfold WriteMessage. rewrite Hw. reflexivity.
Qed.

End Heartbeat.
End HeartbeatFacts.

(** C10.  Every frame that the heartbeat task hands to the link is the
    frame of a heartbeat record whose [active_conns] and [total_requests]
    are 0 and whose timestamp is the second of the tick that sent it, for
    every tunnel and every run of ticks. *)
Theorem heartbeat_counters_are_zero
    (json_Marshal_Heartbeat : HeartbeatPayload -> list byte + error)
    (d : DataPlaneClient) (tunnelID : string) (events : list HeartbeatEvent) :
  exists sent,
    written (StartHeartbeat json_Marshal_Heartbeat d tunnelID events)
    = written d ++ sent
    /\ Forall (fun f =>
         exists now data,
           In (Tick now) events
           /\ json_Marshal_Heartbeat
                {| hb_Timestamp := now / Config.Second; hb_ActiveConns := 0;
                   hb_TotalRequests := 0 |} = inl data
           /\ f = Serialize (NewMessage now MessageTypeHeartbeat tunnelID data))
         sent.
Proof.
  revert d. induction events as [|ev later IH]; intros d.
  - exists []. cbn. rewrite app_nil_r. split; [reflexivity | constructor].
  - destruct ev as [|now].
    + exists []. cbn. rewrite app_nil_r. split; [reflexivity | constructor].
    + cbn [StartHeartbeat].
      pose proof (HeartbeatFacts.SendHeartbeat_written json_Marshal_Heartbeat
                    tunnelID now d 0 0) as Hstep.
      destruct (SendHeartbeat json_Marshal_Heartbeat now d tunnelID 0 0)
        as [d' e] eqn:Hsend.
      cbn [fst] in Hstep.
      destruct (IH d') as (sent & Hsent & Hall).
      assert (Hweaken :
        Forall (fun f =>
          exists now0 data,
            In (Tick now0) (Tick now :: later)
            /\ json_Marshal_Heartbeat
                 {| hb_Timestamp := now0 / Config.Second; hb_ActiveConns := 0;
                    hb_TotalRequests := 0 |} = inl data
            /\ f = Serialize (NewMessage now0 MessageTypeHeartbeat tunnelID data))
          sent).
      { eapply Forall_impl; [exact Hall|].
        intros f (n & data & Hin & Hm & Hf).
        exists n, data. split; [right; exact Hin | split; assumption]. }
      destruct Hstep as [Hsame | (data & Hm & Hone)].
      * exists sent. rewrite Hsent, Hsame. split; [reflexivity | exact Hweaken].
      * exists (Serialize (NewMessage now MessageTypeHeartbeat tunnelID data)
                :: sent).
        rewrite Hsent, Hone, <- app_assoc. split; [reflexivity|].
        constructor; [|exact Hweaken].
        exists now, data.
        split; [left; reflexivity | split; [exact Hm | reflexivity]].
Qed.

(** ** Claims about the tunnel manager *)

Module ManagerFacts.
Import Bytes Fmt Types Protocol Client Config.


(** When the tunnel is known and the dial fails, [reconnectTunnel] has
    slept once for the configured interval, has dialed once, and leaves
    the tunnel in the error state: [MaxReconnectAttempts] is not read. *)
Lemma reconnectTunnel_dial_fails (dialer : nat -> DialResult)
    (json_Marshal_Registration : TunnelRegistrationPayload -> list byte + error)
    (tunnelID : string) (tm : TunnelManager) (ti : TunnelInfo) (err : error) :
  tunnels tm !! tunnelID = Some ti ->
  dialer (dials (dataPlane tm)) = DialFailed err ->
  let tm' := reconnectTunnel dialer json_Marshal_Registration tunnelID tm in
  slept tm' = slept tm ++ [ReconnectInterval (config tm)]
  /\ dials (dataPlane tm') = S (dials (dataPlane tm))
  /\ ti_State <$> (tunnels tm' !! tunnelID) = Some TunnelStateError.
Proof.
  intros Hfound Hdial. cbv zeta. unfold reconnectTunnel.
  cbn [log tunnels]. rewrite Hfound.
  assert (Hd : dials (Disconnect (dataPlane tm)) = dials (dataPlane tm)).
  { unfold Disconnect. destruct (negb _); reflexivity. }
  assert (Hc : connected (Disconnect (dataPlane tm)) = false).
  { unfold Disconnect, connected.
    destruct (link (dataPlane tm)) eqn:Hl; cbn; [reflexivity | rewrite Hl; reflexivity]. }
  unfold Connect. cbn [Sleep withDataPlane dataPlane log].
  rewrite Hc, Hd, Hdial.
  cbn. rewrite lookup_alter_eq, Hfound. repeat split; reflexivity.
Qed.

End ManagerFacts.


(** A manager with one active tunnel on a connected link and a pool whose
    links are all healthy. *)
Definition tunnel_t1 : Tunnel :=
  {| t_ID := "t1"; t_Protocol := "http"; t_PublicURL := EmptyString;
     t_Status := "active"; t_Subdomain := "myapp"; t_LocalPort := 3000 |}.

Definition manager_active : TunnelManager :=
  {| dataPlane := {| link := Some {| inbound := []; outbound := [];
                                     writable := true |};
                     dials := 1 |};
     connectionPool := pool_all_up;
     config := Config.DefaultConnection;
     tunnels := {[ "t1" := {| ti_Tunnel := tunnel_t1;
                              ti_State := TunnelStateActive;
                              ti_Error := None;
                              ti_CreatedAt := 0; ti_UpdatedAt := 0 |} ]};
     logged := []; slept := []; clock := 0 |}.




(** A server that refuses the second dial of the client, the first one of
    the reconnection, and accepts every other. *)
Definition refuses_once (n : nat) : DialResult :=
  match n with
  | 1%nat => DialFailed "connection refused"
  | _ => Established {| inbound := []; outbound := []; writable := true |}
  end.

Definition json_registration (p : TunnelRegistrationPayload)
  : list byte + error := inl [].

(** C9.  With the default configuration (interval 5 s, 10 attempts) and a
    server that refuses the first reconnection dial and would accept the
    next, [reconnectTunnel] sleeps 5 s once, dials once and puts the
    tunnel in the error state: there is no second attempt and no growing
    delay. *)
Theorem reconnect_gives_up_after_one_dial :
  let tm' := reconnectTunnel refuses_once json_registration "t1" manager_active in
  Config.MaxReconnectAttempts (config tm') = 10
  /\ slept tm' = [5 * Config.Second]
  /\ dials (dataPlane tm') = 2%nat
  /\ ti_State <$> (tunnels tm' !! "t1") = Some TunnelStateError
  /\ refuses_once 2 = Established {| inbound := []; outbound := [];
                                     writable := true |}.
Proof.
  cbv zeta.
  destruct (ManagerFacts.reconnectTunnel_dial_fails refuses_once
              json_registration "t1" manager_active
              {| ti_Tunnel := tunnel_t1; ti_State := TunnelStateActive;
                 ti_Error := None; ti_CreatedAt := 0; ti_UpdatedAt := 0 |}
              "connection refused")
    as (Hslept & Hdials & Hstate).
  - apply lookup_singleton_eq.
  - reflexivity.
  - split; [reflexivity|]. split; [exact Hslept|].
    split; [exact Hdials|]. split; [exact Hstate | reflexivity].
Qed.

(** * Further properties of the code *)

(** ** The frame codec and the reader *)

Module CodecMore.
Import Bytes Fmt Types Protocol BytesFacts CodecFacts.

Lemma header_prefix (t : byte) (id16 : list byte) (size : Z)
    (tail : list byte) (k : nat) :
  List.length id16 = 16%nat -> (21 <= k)%nat ->
  firstn k (header t id16 size ++ tail)
  = header t id16 size ++ firstn (k - 21) tail.
Proof.
  intros H16 Hk. rewrite firstn_app, header_length by exact H16.
  rewrite firstn_all2 by (rewrite header_length by exact H16; exact Hk).
  reflexivity.
Qed.

(** [Deserialize] once the header is whole: the declared size against the
    bytes that follow decides. *)
Lemma Deserialize_after_header (m0 : Message) (t : byte) (id16 : list byte)
    (size : Z) (tail : list byte) :
  List.length id16 = 16%nat -> 0 <= size < 2 ^ 32 ->
  Deserialize m0 (header t id16 size ++ tail)
  = if len tail <? size then
      ({| Type_ := t;
          TunnelID := string_of_list_byte (TrimRightNUL id16);
          Payload := Payload m0; Timestamp := Timestamp m0 |},
       Some ("message truncated: expected " ++ itoa (21 + size)
             ++ " bytes, got " ++ itoa (21 + len tail))%string)
    else
      ({| Type_ := t;
          TunnelID := string_of_list_byte (TrimRightNUL id16);
          Payload := firstn (Z.to_nat size) tail;
          Timestamp := Timestamp m0 |}, None).
Proof.
  intros H16 Hsize. pose proof (len_nonneg tail) as Hn.
  unfold Deserialize. rewrite header_len by exact H16.
  destruct (Z.ltb_spec (21 + len tail) 21) as [Hbad|_]; [lia|].
  cbv zeta.
  rewrite header_size_field, Uint32_PutUint32 by (exact H16 || lia).
  rewrite header_type, header_tunnel_id by exact H16.
  replace (21 + len tail <? 21 + size) with (len tail <? size)
    by (destruct (Z.ltb_spec (len tail) size),
          (Z.ltb_spec (21 + len tail) (21 + size)); reflexivity || lia).
  destruct (len tail <? size); [reflexivity|].
  cbn [Type_ TunnelID]. f_equal. f_equal.
  unfold slice.
  replace (21 + Z.to_nat size - 21)%nat with (Z.to_nat size) by lia.
  rewrite drop_app_length'
    by (rewrite header_length by exact H16; reflexivity).
  reflexivity.
Qed.

(** What [io.ReadFull] returns when it succeeds. *)
Lemma ReadFull_inl (n : Z) (s got rest : list byte) :
  0 <= n -> ReadFull n s = (inl got, rest) ->
  got = firstn (Z.to_nat n) s /\ rest = skipn (Z.to_nat n) s
  /\ (Z.to_nat n <= List.length s)%nat.
Proof.
  intros Hn. unfold ReadFull.
  destruct (len s =? 0); [discriminate|].
  destruct (Z.ltb_spec (len s) n) as [|Hge]; [discriminate|].
  intros [= <- <-]. unfold len in Hge. repeat split; lia.
Qed.

Lemma Uint32_nonneg (b : list byte) : 0 <= Uint32 b.
Proof.
  unfold Uint32.
  repeat (apply Z.lor_nonneg; split);
    try apply Z.shiftl_nonneg; apply Z_of_byte_range.
Qed.

(** A message read takes at least the 21 bytes of its header off the
    stream. *)
Lemma ReadMessage_consumes (now : Z) (s s' : list byte) (m : Message) :
  ReadMessage now s = (inl m, s') ->
  (21 + List.length s' <= List.length s)%nat.
Proof.
  unfold ReadMessage.
  destruct (ReadFull 21 s) as [[hdr|err] s1] eqn:Hhdr.
  - apply ReadFull_inl in Hhdr as (_ & -> & Hlen); [|lia].
    cbv zeta.
    set (size := Uint32 (slice hdr 17 21)).
    pose proof (Uint32_nonneg (slice hdr 17 21)) as Hsize. fold size in Hsize.
    destruct (0 <? size).
    + destruct (ReadFull size (skipn (Z.to_nat 21) s)) as [[p|e] s2] eqn:Hp;
        [|discriminate].
      apply ReadFull_inl in Hp as (_ & -> & Hlen2); [|exact Hsize].
      intros [= _ <-]. rewrite !length_skipn in *. lia.
    + intros [= _ <-]. rewrite length_skipn. lia.
  - destruct (String.eqb err "EOF"); discriminate.
Qed.

(** What a run of [WriteMessage] leaves on a link that takes the writes. *)
Lemma WriteMessage_all (ms : list Message) :
  forall c : Conn,
  writable c = true ->
  outbound (fold_left (fun c m => fst (WriteMessage c m)) ms c)
  = outbound c ++ map Serialize ms.
Proof.
  induction ms as [|m ms IH]; intros c Hw; cbn [fold_left map].
  - rewrite app_nil_r. reflexivity.
  - unfold WriteMessage at 2. rewrite Hw. cbn [fst].
    rewrite IH by reflexivity. cbn [outbound].
    rewrite <- app_assoc. reflexivity.
Qed.

(** A message as [ReadMessage] hands it over at time [now]: the tunnel id
    is the first 15 bytes of the 16-byte field. *)
Definition asRead (now : Z) (m : Message) : Message :=
  {| Type_ := Type_ m;
     TunnelID :=
       string_of_list_byte
         (firstn 15 (copy_into_zeros 16 (list_byte_of_string (TunnelID m))));
     Payload := Payload m;
     Timestamp := now |}.

Lemma ReadMessageAsync_frames (clock : nat -> Z) (ms : list Message) :
  forall (fuel i : nat),
  Forall (fun m => len (Payload m) < 2 ^ 32) ms ->
  (List.length ms < fuel)%nat ->
  ReadMessageAsync fuel clock i (concat (map Serialize ms))
  = Some (imap (fun k m => asRead (clock (i + k)%nat) m) ms, None).
Proof.
  induction ms as [|m ms IH]; intros fuel i Hall Hfuel.
  - destruct fuel as [|fuel]; [cbn in Hfuel; lia|]. reflexivity.
  - destruct fuel as [|fuel]; [cbn in Hfuel; lia|].
    apply Forall_cons in Hall as [Hm Hall].
    cbn [map concat ReadMessageAsync].
    rewrite ReadMessage_tunnel_id by exact Hm.
    rewrite (IH fuel (S i) Hall) by (cbn in Hfuel; lia).
    rewrite imap_cons. unfold asRead at 2.
    rewrite Nat.add_0_r. f_equal. f_equal. f_equal.
    apply imap_ext. intros k x _. cbn. f_equal. f_equal. lia.
Qed.

End CodecMore.

Import CodecMore.

(** X1.  Every frame that [Serialize] writes is 21 bytes longer than the
    payload of the message, whatever the tunnel id. *)
Theorem Serialize_length (m : Message) :
  len (Serialize m) = 21 + len (Payload m).
Proof.
  unfold Serialize. cbv zeta.
  rewrite BytesFacts.copy_into_zeros_truncated.
  unfold len. rewrite !length_app, BytesFacts.copy_into_zeros_length.
  unfold PutUint32. cbn [List.length]. lia.
Qed.

(** X2.  The round trip for any tunnel id: with a payload shorter than
    2^32 bytes, [Deserialize] on the bytes of [Serialize] gives back the
    type and the payload, and the first 16 bytes of the tunnel id with
    their trailing NUL bytes trimmed. *)
Theorem round_trip_truncates_tunnel_id (m m0 : Message) :
  len (Payload m) < 2 ^ 32 ->
  Deserialize m0 (Serialize m)
  = ({| Type_ := Type_ m;
        TunnelID :=
          string_of_list_byte
            (TrimRightNUL (firstn 16 (list_byte_of_string (TunnelID m))));
        Payload := Payload m;
        Timestamp := Timestamp m0 |}, None).
Proof.
  intros Hsize.
  rewrite CodecFacts.Serialize_frame by exact Hsize.
  rewrite CodecFacts.Deserialize_frame
    by (apply BytesFacts.copy_into_zeros_length || exact Hsize).
  unfold copy_into_zeros. rewrite BytesFacts.TrimRightNUL_app_zeros.
  reflexivity.
Qed.

Definition long_id_message : Message :=
  {| Type_ := MessageTypeDataResponse; TunnelID := "abcdefghijklmnopqrstuvwxyz";
     Payload := [x01]; Timestamp := 9 |}.

Lemma round_trip_truncates_tunnel_id_witness :
  Deserialize blank_message (Serialize long_id_message)
  = ({| Type_ := MessageTypeDataResponse; TunnelID := "abcdefghijklmnop";
        Payload := [x01]; Timestamp := 0 |}, None).
Proof.
  apply (round_trip_truncates_tunnel_id long_id_message blank_message).
  reflexivity.
Defined.

(** X3.  [Deserialize] accepts no proper prefix of a frame: on the first
    [k] bytes of what [Serialize] wrote, with [k] less than the length of
    the frame, it returns an error and leaves the payload of the receiver
    as it was. *)
Theorem Deserialize_rejects_prefix (m m0 : Message) (k : nat) :
  len (Payload m) < 2 ^ 32 ->
  (k < List.length (Serialize m))%nat ->
  exists err,
    snd (Deserialize m0 (firstn k (Serialize m))) = Some err
    /\ Payload (fst (Deserialize m0 (firstn k (Serialize m)))) = Payload m0.
Proof.
  intros Hsize Hk.
  pose proof (Serialize_length m) as Hlen. unfold len in Hlen.
  rewrite CodecFacts.Serialize_frame in * by exact Hsize.
  unfold CodecFacts.frame in *.
  destruct (Nat.lt_ge_cases k 21) as [Hshort|Hlong].
  - unfold Deserialize.
    assert (Hl : (len (firstn k
                   (CodecFacts.header (Type_ m)
                      (copy_into_zeros 16 (list_byte_of_string (TunnelID m)))
                      (len (Payload m)) ++ Payload m)) <? 21) = true).
    { apply Z.ltb_lt. unfold len. rewrite length_firstn. lia. }
    rewrite Hl. eexists. split; reflexivity.
  - rewrite header_prefix
      by (apply BytesFacts.copy_into_zeros_length || exact Hlong).
    rewrite Deserialize_after_header
      by (apply BytesFacts.copy_into_zeros_length
          || (pose proof (BytesFacts.len_nonneg (Payload m)); lia)).
    assert (Hl : (len (firstn (k - 21) (Payload m)) <? len (Payload m)) = true).
    { apply Z.ltb_lt. unfold len. rewrite length_firstn. lia. }
    rewrite Hl. eexists. split; reflexivity.
Qed.

Lemma Deserialize_rejects_prefix_witness :
  exists err,
    snd (Deserialize blank_message (firstn 22 (Serialize sample_message)))
    = Some err
    /\ Payload (fst (Deserialize blank_message
                       (firstn 22 (Serialize sample_message)))) = [].
Proof.
  apply (Deserialize_rejects_prefix sample_message blank_message 22).
  - reflexivity.
  - vm_compute. lia.
Defined.

(** X4.  [Deserialize] does not look past the declared payload: bytes that
    follow a whole frame in the buffer change nothing of its result. *)
Theorem Deserialize_ignores_trailing_bytes (m m0 : Message)
    (extra : list byte) :
  len (Payload m) < 2 ^ 32 ->
  Deserialize m0 (Serialize m ++ extra) = Deserialize m0 (Serialize m).
Proof.
  intros Hsize. pose proof (BytesFacts.len_nonneg (Payload m)) as Hn.
  pose proof (BytesFacts.len_nonneg extra) as He.
  rewrite CodecFacts.Serialize_frame by exact Hsize.
  rewrite CodecFacts.Deserialize_frame
    by (apply BytesFacts.copy_into_zeros_length || exact Hsize).
  unfold CodecFacts.frame. rewrite <- app_assoc.
  rewrite Deserialize_after_header
    by (apply BytesFacts.copy_into_zeros_length || lia).
  rewrite BytesFacts.len_app.
  destruct (Z.ltb_spec (len (Payload m) + len extra) (len (Payload m)));
    [lia|].
  unfold len. rewrite Nat2Z.id, take_app_length. reflexivity.
Qed.

Lemma Deserialize_ignores_trailing_bytes_witness :
  Deserialize blank_message (Serialize sample_message ++ [xff; xff])
  = Deserialize blank_message (Serialize sample_message).
Proof.
  apply (Deserialize_ignores_trailing_bytes sample_message blank_message).
  reflexivity.
Defined.

(** X5.  A stream that ends inside the header: [ReadMessage] reports
    "connection closed by peer" when not one byte is left and a header
    read failure when 1 to 20 bytes are, and the stream is used up. *)
Theorem ReadMessage_short_header (now : Z) (s : list byte) :
  len s < 21 ->
  ReadMessage now s
  = (inr (if len s =? 0 then "connection closed by peer"
          else "failed to read message header: unexpected EOF"), []).
Proof.
  intros Hs. unfold ReadMessage, ReadFull.
  destruct (len s =? 0); [reflexivity|].
  destruct (Z.ltb_spec (len s) 21); [reflexivity|lia].
Qed.

Lemma ReadMessage_short_header_witness :
  ReadMessage 0 [x05; x61]
  = (inr "failed to read message header: unexpected EOF", []).
Proof.
  apply (ReadMessage_short_header 0 [x05; x61]). reflexivity.
Defined.

(** X6.  [ReadMessage] gives a written message back unchanged when its
    tunnel id has 15 bytes, NUL bytes or not: then the byte it cuts is the
    one byte of padding. *)
Theorem ReadMessage_exact_for_15_byte_ids (m : Message) (now : Z)
    (rest : list byte) :
  List.length (list_byte_of_string (TunnelID m)) = 15%nat ->
  len (Payload m) < 2 ^ 32 ->
  ReadMessage now (Serialize m ++ rest)
  = (inl {| Type_ := Type_ m; TunnelID := TunnelID m; Payload := Payload m;
            Timestamp := now |}, rest).
Proof.
  intros H15 Hsize.
  rewrite CodecFacts.ReadMessage_tunnel_id by exact Hsize.
  rewrite BytesFacts.copy_into_zeros_short by lia.
  rewrite take_app_length' by (symmetry; exact H15).
  rewrite string_of_list_byte_of_string. reflexivity.
Qed.

Definition id15_message : Message :=
  {| Type_ := MessageTypeDataForward; TunnelID := "tunnel-15-bytes";
     Payload := [x68; x69]; Timestamp := 3 |}.

Lemma ReadMessage_exact_for_15_byte_ids_witness :
  ReadMessage 8 (Serialize id15_message ++ [x07])
  = (inl {| Type_ := MessageTypeDataForward; TunnelID := "tunnel-15-bytes";
            Payload := [x68; x69]; Timestamp := 8 |}, [x07]).
Proof.
  apply (ReadMessage_exact_for_15_byte_ids id15_message 8 [x07]);
    reflexivity.
Defined.

(** X7.  Writer to reader: when messages with payloads shorter than 2^32
    bytes are written one after the other by [WriteMessage] on a fresh
    link that takes the writes, the loop of [ReadMessageAsync] on the
    bytes written delivers them all, in order, each as [ReadMessage] reads
    it, and ends on the close of the peer without an error. *)
Theorem reader_loop_delivers_written_frames (clock : nat -> Z)
    (ms : list Message) (c : Conn) (fuel : nat) :
  Forall (fun m => len (Payload m) < 2 ^ 32) ms ->
  writable c = true -> outbound c = [] ->
  (List.length ms < fuel)%nat ->
  ReadMessageAsync fuel clock 0
    (concat (outbound (fold_left (fun c m => fst (WriteMessage c m)) ms c)))
  = Some (imap (fun k m => asRead (clock k) m) ms, None).
Proof.
  intros Hall Hw Hout Hfuel.
  rewrite WriteMessage_all by exact Hw. rewrite Hout. cbn [app].
  apply (ReadMessageAsync_frames clock ms fuel 0 Hall Hfuel).
Qed.

Lemma reader_loop_delivers_written_frames_witness :
  ReadMessageAsync 3 (fun k => Z.of_nat k) 0
    (concat (outbound
       (fold_left (fun c m => fst (WriteMessage c m))
          [id15_message; sample_message]
          {| inbound := []; outbound := []; writable := true |})))
  = Some ([asRead 0 id15_message; asRead 1 sample_message], None).
Proof.
  apply (reader_loop_delivers_written_frames (fun k => Z.of_nat k)
           [id15_message; sample_message]
           {| inbound := []; outbound := []; writable := true |} 3).
  - repeat constructor.
  - reflexivity.
  - reflexivity.
  - cbn. lia.
Defined.

(** X8.  The loop of [ReadMessageAsync] ends on every finite stream: more
    rounds than the stream has bytes are enough, and it delivers at most
    one message per 21 bytes of the stream. *)
Theorem reader_loop_ends (clock : nat -> Z) (fuel : nat) :
  forall (i : nat) (s : list byte),
  (List.length s < fuel)%nat ->
  exists ms err,
    ReadMessageAsync fuel clock i s = Some (ms, err)
    /\ (21 * List.length ms <= List.length s)%nat.
Proof.
  induction fuel as [|fuel IH]; intros i s Hfuel; [lia|].
  cbn [ReadMessageAsync].
  destruct (ReadMessage (clock i) s) as [[m|e] s'] eqn:Hread.
  - pose proof (ReadMessage_consumes _ _ _ _ Hread) as Hless.
    destruct (IH (S i) s') as (ms & err & Hrun & Hcount); [lia|].
    rewrite Hrun. exists (m :: ms), err. split; [reflexivity|].
    cbn [List.length]. lia.
  - destruct (String.eqb e "connection closed by peer");
      eexists [], _; (split; [reflexivity | cbn; lia]).
Qed.

Lemma reader_loop_ends_witness :
  exists ms err,
    ReadMessageAsync 2 (fun k => Z.of_nat k) 0 [x05] = Some (ms, err)
    /\ (21 * List.length ms <= List.length [x05])%nat.
Proof.
  apply (reader_loop_ends (fun k => Z.of_nat k) 2 0 [x05]). cbn. lia.
Defined.

(** ** The connection pool, further *)

Module PoolMore.
Import Bytes Fmt Pool PoolFacts.

(** [conn.IsHealthy = false] *)
Definition unhealthy (c : Connection) : Connection :=
  {| ID := ID c; IsHealthy := false; LastUsed := LastUsed c;
     CreatedAt := CreatedAt c |}.

(** Successive calls of [GetConnection], at the times [nows]: what each
    call returns. *)
Fixpoint acquireAll (nows : list Z) (cp : ConnectionPool)
  : list (outcome (Connection + error)) :=
  match nows with
  | [] => []
  | now :: later =>
      fst (GetConnection now cp) :: acquireAll later (snd (GetConnection now cp))
  end.

Lemma markFirst_ids (connID : string) (l : list Connection) :
  ID <$> markFirst connID l = ID <$> l.
Proof.
  induction l as [|c rest IH]; [reflexivity|].
  cbn [markFirst]. destruct (String.eqb (ID c) connID); cbn.
  - reflexivity.
  - rewrite IH. reflexivity.
Qed.

(** With ids that are all different, marking by id marks the link itself. *)
Lemma markFirst_unique (l : list Connection) :
  forall (i : nat) (c : Connection),
  NoDup (ID <$> l) -> l !! i = Some c ->
  markFirst (ID c) l = <[i := unhealthy c]> l.
Proof.
  induction l as [|h rest IH]; intros i c Hnd Hi; [discriminate|].
  apply NoDup_cons in Hnd as [Hnotin Hnd].
  cbn [markFirst].
  destruct i as [|i]; cbn in Hi.
  - injection Hi as ->. rewrite String.eqb_refl. reflexivity.
  - destruct (String.eqb_spec (ID h) (ID c)) as [Heq|Hne].
    + exfalso. apply Hnotin. rewrite Heq.
      apply list_elem_of_fmap. exists c. split; [reflexivity|].
      eapply list_elem_of_lookup_2. exact Hi.
    + cbn. f_equal. apply IH; assumption.
Qed.

Lemma markFirst_unhealthy (connID : string) (l : list Connection) :
  forall (j : nat) (c : Connection),
  NoDup (ID <$> l) -> markFirst connID l !! j = Some c -> ID c = connID ->
  IsHealthy c = false.
Proof.
  induction l as [|h rest IH]; intros j c Hnd Hj Hid; [discriminate|].
  apply NoDup_cons in Hnd as [Hnotin Hnd].
  cbn [markFirst] in Hj.
  destruct (String.eqb_spec (ID h) connID) as [Heq|Hne].
  - destruct j as [|j]; cbn in Hj.
    + injection Hj as <-. reflexivity.
    + exfalso. apply Hnotin. rewrite Heq, <- Hid.
      apply list_elem_of_fmap. exists c. split; [reflexivity|].
      eapply list_elem_of_lookup_2. exact Hj.
  - destruct j as [|j]; cbn in Hj.
    + injection Hj as <-. congruence.
    + eapply IH; eassumption.
Qed.

Lemma markFirst_absent (connID : string) (l : list Connection) :
  connID ∉ (ID <$> l) -> markFirst connID l = l.
Proof.
  induction l as [|h rest IH]; intros Hnotin; [reflexivity|].
  cbn [markFirst]. cbn in Hnotin. apply not_elem_of_cons in Hnotin as [Hne Hrest].
  destruct (String.eqb_spec (ID h) connID) as [Heq|_]; [congruence|].
  rewrite IH by exact Hrest. reflexivity.
Qed.

(** One call on a pool whose links are all healthy. *)
Lemma GetConnection_all_healthy (now : Z) (cp : ConnectionPool) :
  0 <= roundRobin cp < 2 ^ 63 - 1 -> connections cp <> [] ->
  Forall (fun c => IsHealthy c = true) (connections cp) ->
  let i := (roundRobin cp + 1) mod len (connections cp) in
  exists c,
    connections cp !! Z.to_nat i = Some c
    /\ 0 <= i < len (connections cp)
    /\ GetConnection now cp
       = (Returned (inl (touch now c)),
          {| poolSize := poolSize cp;
             connections := <[Z.to_nat i := touch now c]> (connections cp);
             roundRobin := i |}).
Proof.
  intros Hrr Hne Hall. cbv zeta.
  destruct (nextIndex_mod cp Hrr Hne) as [Hi Hrange].
  destruct (index_in_range cp _ Hrange) as [c Hsel].
  rewrite <- Hi. exists c.
  rewrite (GetConnection_selected now cp c Hsel).
  unfold index in Hsel. destruct (Z.ltb_spec (nextIndex cp) 0); [lia|].
  assert (Hh : IsHealthy c = true).
  { rewrite Forall_forall in Hall. apply Hall.
    eapply list_elem_of_lookup_2. exact Hsel. }
  rewrite Hh. repeat split; assumption || lia.
Qed.

Lemma countHealth_acc (l : list Connection) :
  forall acc : Z * Z,
  fold_left
    (fun acc conn =>
       if IsHealthy conn then (fst acc + 1, snd acc)
       else (fst acc, snd acc + 1)) l acc
  = (fst acc + len (List.filter IsHealthy l),
     snd acc + (len l - len (List.filter IsHealthy l))).
Proof.
  induction l as [|c rest IH]; intros [h u]; cbn [fold_left List.filter].
  - unfold len. cbn. f_equal; lia.
  - rewrite IH. destruct (IsHealthy c); unfold len; cbn [fst snd List.length];
      f_equal; lia.
Qed.

Lemma countHealthy_acc (l : list Connection) :
  forall healthy : Z,
  fold_left (fun healthy conn => if IsHealthy conn then healthy + 1 else healthy)
    l healthy
  = healthy + len (List.filter IsHealthy l).
Proof.
  induction l as [|c rest IH]; intros h; cbn [fold_left List.filter].
  - unfold len. cbn. lia.
  - rewrite IH. destruct (IsHealthy c); unfold len; cbn [List.length]; lia.
Qed.

Lemma findFirst_Some (connID : string) (l : list Connection) :
  forall i : nat,
  findFirst connID l = Some i ->
  exists c, l !! i = Some c /\ ID c = connID.
Proof.
  induction l as [|h rest IH]; intros i Hf; [discriminate|].
  cbn [findFirst] in Hf.
  destruct (String.eqb_spec (ID h) connID) as [Heq|Hne].
  - injection Hf as <-. exists h. split; [reflexivity | exact Heq].
  - destruct (findFirst connID rest) as [j|] eqn:Hj; [|discriminate].
    injection Hf as <-. destruct (IH j eq_refl) as (c & Hc & Hid).
    exists c. split; assumption.
Qed.

Lemma findFirst_None (connID : string) (l : list Connection) :
  findFirst connID l = None -> connID ∉ (ID <$> l).
Proof.
  induction l as [|h rest IH]; intros Hf; [apply not_elem_of_nil|].
  cbn [findFirst] in Hf.
  destruct (String.eqb_spec (ID h) connID) as [Heq|Hne]; [discriminate|].
  destruct (findFirst connID rest) eqn:Hj; [discriminate|].
  cbn. apply not_elem_of_cons. split; [congruence | apply IH; reflexivity].
Qed.

Lemma InitializeFrom_appends (dial : nat -> Dialed) (n : nat) :
  forall (i : nat) (cp : ConnectionPool),
  exists added,
    connections (InitializeFrom dial i n cp) = connections cp ++ added
    /\ Forall (fun c => IsHealthy c = true) added
    /\ (List.length added <= n)%nat
    /\ poolSize (InitializeFrom dial i n cp) = poolSize cp
    /\ roundRobin (InitializeFrom dial i n cp) = roundRobin cp.
Proof.
  induction n as [|n IH]; intros i cp; cbn [InitializeFrom].
  - exists []. rewrite app_nil_r. repeat split; [constructor | cbn; lia].
  - destruct (createConnection (dial i)) as [conn|err] eqn:Hc.
    + destruct (IH (S i) (addConnection conn cp))
        as (added & Heq & Hall & Hlen & Hps & Hrr).
      exists (conn :: added). rewrite Heq. cbn [addConnection connections].
      rewrite <- app_assoc. repeat split; try assumption.
      * constructor; [|exact Hall].
        unfold createConnection in Hc.
        destruct (dial i); try discriminate. injection Hc as <-. reflexivity.
      * cbn [List.length]. lia.
    + destruct (IH (S i) cp) as (added & Heq & Hall & Hlen & Hps & Hrr).
      exists added. repeat split; try assumption. lia.
Qed.

End PoolMore.

Import PoolFacts PoolMore.

(** X9.  Round-robin order: on a pool that is not empty, whose links are
    all healthy and whose cursor is a valid index, the call number [k]
    (from 0) of a run of [GetConnection] calls returns the link at
    position (cursor + 1 + k) modulo the number of links, so that as many
    calls as there are links take each link once. *)
Theorem round_robin_takes_links_in_turn (nows : list Z) :
  forall (cp : ConnectionPool) (k : nat) (t : Z),
  0 <= roundRobin cp < 2 ^ 63 - 1 ->
  connections cp <> [] ->
  len (connections cp) < 2 ^ 63 ->
  Forall (fun c => IsHealthy c = true) (connections cp) ->
  nows !! k = Some t ->
  exists c conn,
    connections cp
      !! Z.to_nat ((roundRobin cp + 1 + Z.of_nat k) mod len (connections cp))
    = Some c
    /\ acquireAll nows cp !! k = Some (Returned (inl conn))
    /\ ID conn = ID c.
Proof.
  induction nows as [|now later IH]; intros cp k t Hrr Hne Hint Hall Hk;
    [discriminate|].
  destruct (GetConnection_all_healthy now cp Hrr Hne Hall)
    as (c & Hc & Hrange & Hget).
  cbn [acquireAll]. rewrite Hget. cbn [fst snd].
  destruct k as [|k].
  - exists c, (touch now c). rewrite Z.add_0_r.
    split; [exact Hc|]. split; reflexivity.
  - cbn in Hk.
    set (n := len (connections cp)) in *.
    set (i := (roundRobin cp + 1) mod n) in *.
    set (cp' := {| poolSize := poolSize cp;
                   connections := <[Z.to_nat i := touch now c]> (connections cp);
                   roundRobin := i |}).
    assert (Hlen' : len (connections cp') = n).
    { unfold cp', n, len. cbn [connections]. rewrite length_insert. reflexivity. }
    assert (Hne' : connections cp' <> []).
    { intros Hnil. apply (f_equal (@List.length _)) in Hnil.
      unfold cp' in Hnil. cbn [connections] in Hnil.
      rewrite length_insert in Hnil.
      destruct (connections cp); [congruence | discriminate]. }
    assert (Hall' : Forall (fun c0 => IsHealthy c0 = true) (connections cp')).
    { unfold cp'. cbn [connections]. apply Forall_insert; [exact Hall|].
      cbn. rewrite Forall_forall in Hall. apply Hall.
      eapply list_elem_of_lookup_2. exact Hc. }
    assert (Hrr' : 0 <= roundRobin cp' < 2 ^ 63 - 1).
    { unfold cp'. cbn [roundRobin]. lia. }
    assert (Hint' : len (connections cp') < 2 ^ 63) by (rewrite Hlen'; exact Hint).
    destruct (IH cp' k t Hrr' Hne' Hint' Hall' Hk)
      as (c' & conn & Hc' & Hrun & Hid).
    rewrite Hlen' in Hc'. cbn [roundRobin cp'] in Hc'. unfold cp' in Hc'.
    cbn [roundRobin connections] in Hc'.
    replace ((i + 1 + Z.of_nat k) mod n)
      with ((roundRobin cp + 1 + Z.of_nat (S k)) mod n) in Hc'.
    2:{ unfold i. symmetry.
        rewrite <- (Z.add_assoc _ 1 (Z.of_nat k)), Z.add_mod_idemp_l by lia.
        f_equal. lia. }
    set (j := Z.to_nat ((roundRobin cp + 1 + Z.of_nat (S k)) mod n)) in *.
    destruct (decide (Z.to_nat i = j)) as [Heq|Hneq].
    + rewrite <- Heq in Hc'.
      rewrite list_lookup_insert_eq in Hc'
        by (apply lookup_lt_Some in Hc; exact Hc).
      injection Hc' as <-. exists c, conn. rewrite <- Heq.
      split; [exact Hc|]. split; [exact Hrun | exact Hid].
    + rewrite list_lookup_insert_ne in Hc' by exact Hneq.
      exists c', conn. split; [exact Hc'|]. split; [exact Hrun | exact Hid].
Qed.

Definition link_c : Connection :=
  {| ID := "conn_3"; IsHealthy := true; LastUsed := 0; CreatedAt := 0 |}.

Definition pool_two_up : ConnectionPool :=
  {| poolSize := 2; connections := [link_a; link_c]; roundRobin := 0 |}.

Lemma round_robin_takes_links_in_turn_witness :
  exists c conn,
    connections pool_two_up
      !! Z.to_nat ((roundRobin pool_two_up + 1 + Z.of_nat 2)
                   mod len (connections pool_two_up)) = Some c
    /\ acquireAll [10; 20; 30] pool_two_up !! 2%nat = Some (Returned (inl conn))
    /\ ID conn = ID c.
Proof.
  apply (round_robin_takes_links_in_turn [10; 20; 30] pool_two_up 2 30).
  - cbn. lia.
  - discriminate.
  - reflexivity.
  - repeat constructor.
  - reflexivity.
Defined.

(** X10.  In a pool whose links have different ids, a link marked by
    [MarkConnectionUnhealthy] is not handed out again: whatever
    [GetConnection] returns after the marking has another id. *)
Theorem marked_link_is_not_acquired (connID : string) (now : Z)
    (cp cp' : ConnectionPool) (conn : Connection) :
  NoDup (ID <$> connections cp) ->
  GetConnection now (MarkConnectionUnhealthy connID cp)
  = (Returned (inl conn), cp') ->
  ID conn <> connID.
Proof.
  intros Hnd Hget Hid.
  destruct (GetConnection_returned now _ cp' conn Hget)
    as (c & Hsel & Hh & -> & _).
  unfold index in Hsel.
  destruct (nextIndex (MarkConnectionUnhealthy connID cp) <? 0);
    [discriminate|].
  cbn [MarkConnectionUnhealthy connections] in Hsel.
  rewrite (markFirst_unhealthy connID (connections cp) _ c Hnd Hsel Hid) in Hh.
  discriminate.
Qed.

Lemma marked_link_is_not_acquired_witness :
  ID (touch 5 link_a) <> "conn_3".
Proof.
  apply (marked_link_is_not_acquired "conn_3" 5
           {| poolSize := 2; connections := [link_a; link_c]; roundRobin := 1 |}
           {| poolSize := 2;
              connections := [touch 5 link_a; unhealthy link_c];
              roundRobin := 0 |}
           (touch 5 link_a)).
  - apply (bool_decide_unpack _). vm_compute. reflexivity.
  - reflexivity.
Defined.

(** X11.  The counters of [GetStats] add up: healthy plus unhealthy is the
    total, the healthy count is the one of [GetHealthyConnectionCount] and
    the number of links that [GetHealthyConnections] lists, and it lies
    between 0 and the total. *)
Theorem stats_add_up (cp : ConnectionPool) :
  healthy_connections (GetStats cp) + unhealthy_connections (GetStats cp)
  = total_connections (GetStats cp)
  /\ healthy_connections (GetStats cp) = GetHealthyConnectionCount cp
  /\ GetHealthyConnectionCount cp = len (GetHealthyConnections cp)
  /\ 0 <= healthy_connections (GetStats cp) <= GetConnectionCount cp.
Proof.
  unfold GetStats, GetHealthyConnectionCount, GetHealthyConnections,
    GetConnectionCount, countHealth.
  cbn [healthy_connections unhealthy_connections total_connections].
  rewrite countHealth_acc, countHealthy_acc. cbn [fst snd].
  pose proof (List.filter_length_le IsHealthy (connections cp)) as Hle.
  unfold len. repeat split; lia.
Qed.

(** X12.  The health check in a pool whose links have different ids: the
    links that were healthy and whose probe returned an error, of any
    kind, are unhealthy afterwards, and every other link, the size of the
    pool and the cursor are as before; no link becomes healthy. *)
Theorem health_check_marks_failed_probes (probe_fails : nat -> bool)
    (cp : ConnectionPool) :
  NoDup (ID <$> connections cp) ->
  checkConnectionsHealth probe_fails cp
  = {| poolSize := poolSize cp;
       connections :=
         imap (fun i c => if IsHealthy c && probe_fails i then unhealthy c else c)
           (connections cp);
       roundRobin := roundRobin cp |}.
Proof.
  intros Hnd. unfold checkConnectionsHealth.
  set (l := connections cp).
  assert (Hgen : forall k : nat, (k <= List.length l)%nat ->
    fold_left (checkOne probe_fails) (seq 0 k) cp
    = {| poolSize := poolSize cp;
         connections :=
           imap (fun i c =>
                   if (i <? k)%nat && (IsHealthy c && probe_fails i)
                   then unhealthy c else c) l;
         roundRobin := roundRobin cp |}).
  { induction k as [|k IHk]; intros Hk.
    - cbn [seq fold_left]. destruct cp as [ps conns rr]. cbn in *. f_equal.
      apply list_eq. intros i. rewrite list_lookup_imap.
      destruct (conns !! i); reflexivity.
    - rewrite seq_S, fold_left_app, IHk by lia. cbn [fold_left Nat.add].
      destruct (lookup_lt_is_Some_2 l k) as [c Hc]; [lia|].
      unfold checkOne. cbn [connections].
      rewrite list_lookup_imap, Hc. cbn [fmap option_fmap option_map].
      replace (k <? k)%nat with false by (symmetry; apply Nat.ltb_irrefl).
      cbn [andb].
      set (Lk := imap (fun i c0 =>
                   if (i <? k)%nat && (IsHealthy c0 && probe_fails i)
                   then unhealthy c0 else c0) l).
      assert (HLk : Lk !! k = Some c).
      { unfold Lk. rewrite list_lookup_imap, Hc. cbn [fmap option_fmap option_map].
        replace (k <? k)%nat with false by (symmetry; apply Nat.ltb_irrefl).
        reflexivity. }
      assert (Hids : ID <$> Lk = ID <$> l).
      { apply list_eq. intros i. rewrite !list_lookup_fmap. unfold Lk.
        rewrite list_lookup_imap. destruct (l !! i) as [x|]; [|reflexivity].
        cbn [fmap option_fmap option_map].
        match goal with
        | |- context [if ?b then _ else _] => destruct b
        end; reflexivity. }
      assert (Hstep : forall x : Connection,
        x = (if IsHealthy c && probe_fails k then unhealthy c else c) ->
        <[k := x]> Lk
        = imap (fun i c0 =>
                  if (i <? S k)%nat && (IsHealthy c0 && probe_fails i)
                  then unhealthy c0 else c0) l).
      { intros x ->. apply list_eq. intros i.
        rewrite list_lookup_imap.
        destruct (decide (k = i)) as [<-|Hne].
        - rewrite list_lookup_insert_eq by (apply lookup_lt_Some in HLk; exact HLk).
          rewrite Hc. cbn [fmap option_fmap option_map].
          replace (k <? S k)%nat with true by (symmetry; apply Nat.ltb_lt; lia).
          reflexivity.
        - rewrite list_lookup_insert_ne by exact Hne.
          unfold Lk. rewrite list_lookup_imap.
          destruct (l !! i) as [x|]; [|reflexivity].
          cbn [fmap option_fmap option_map].
          replace (i <? S k)%nat with (i <? k)%nat; [reflexivity|].
          destruct (Nat.ltb_spec i k), (Nat.ltb_spec i (S k)); reflexivity || lia. }
      destruct (IsHealthy c) eqn:Hh; cbn [negb andb] in *.
      + destruct (probe_fails k) eqn:Hp.
        * unfold MarkConnectionUnhealthy. cbn [connections poolSize roundRobin].
          f_equal.
          rewrite (markFirst_unique Lk k c) by (rewrite ?Hids; assumption).
          apply Hstep. reflexivity.
        * f_equal. rewrite <- (Hstep c eq_refl).
          symmetry. apply list_insert_id. exact HLk.
      + f_equal. rewrite <- (Hstep c eq_refl).
        symmetry. apply list_insert_id. exact HLk. }
  rewrite (Hgen (List.length l)) by lia. f_equal.
  apply imap_ext. intros i c Hi. apply lookup_lt_Some in Hi.
  replace (i <? List.length l)%nat with true
    by (symmetry; apply Nat.ltb_lt; exact Hi).
  reflexivity.
Qed.

Lemma health_check_marks_failed_probes_witness :
  checkConnectionsHealth (fun i => Nat.eqb i 1) pool_two_up
  = {| poolSize := 2; connections := [link_a; unhealthy link_c];
       roundRobin := 0 |}.
Proof.
  apply (health_check_marks_failed_probes (fun i => Nat.eqb i 1) pool_two_up).
  apply (bool_decide_unpack _). vm_compute. reflexivity.
Defined.

(** X13.  [ReplaceConnection] keeps the size of the pool.  When no link
    has the id, or when the dial of the new connection fails, it returns
    an error and the pool is as before (the old link stays in its slot);
    otherwise the first link with that id gives its slot to a new, healthy
    link and every other slot is as before. *)
Theorem replace_keeps_pool_size (d : Dialed) (oldConnID : string)
    (cp : ConnectionPool) :
  let cp' := fst (ReplaceConnection d oldConnID cp) in
  let err := snd (ReplaceConnection d oldConnID cp) in
  len (connections cp') = len (connections cp)
  /\ match err with
     | Some _ =>
         cp' = cp
         /\ (oldConnID ∉ (ID <$> connections cp)
             \/ exists e, createConnection d = inr e)
     | None =>
         exists i old new,
           connections cp !! i = Some old /\ ID old = oldConnID
           /\ createConnection d = inl new /\ IsHealthy new = true
           /\ connections cp' = <[i := new]> (connections cp)
     end.
Proof.
  cbv zeta. unfold ReplaceConnection.
  destruct (findFirst oldConnID (connections cp)) as [i|] eqn:Hfind.
  - destruct (findFirst_Some _ _ _ Hfind) as (old & Hold & Hid).
    destruct (createConnection d) as [new|e] eqn:Hnew; cbn [fst snd connections].
    + split; [unfold len; rewrite length_insert; reflexivity|].
      exists i, old, new. repeat split; try assumption.
      unfold createConnection in Hnew.
      destruct d; try discriminate. injection Hnew as <-. reflexivity.
    + split; [reflexivity|]. split; [reflexivity|]. right. exists e. reflexivity.
  - cbn [fst snd]. split; [reflexivity|]. split; [reflexivity|].
    left. apply findFirst_None. exact Hfind.
Qed.

(** X14.  [Initialize] only appends: the links of the pool before stay
    in front, in order, each link it adds is healthy, it adds at most
    [poolSize] links (none when [poolSize] is negative), and the cursor is
    left alone. *)
Theorem initialize_appends_healthy_links (dial : nat -> Dialed)
    (cp : ConnectionPool) :
  exists added,
    connections (Initialize dial cp) = connections cp ++ added
    /\ Forall (fun c => IsHealthy c = true) added
    /\ len added <= Z.max 0 (poolSize cp)
    /\ roundRobin (Initialize dial cp) = roundRobin cp.
Proof.
  unfold Initialize.
  destruct (InitializeFrom_appends dial (Z.to_nat (poolSize cp)) 0 cp)
    as (added & Heq & Hall & Hlen & _ & Hrr).
  exists added. unfold len. repeat split; try assumption. lia.
Qed.

(** ** The data-plane client and the tunnel manager, further *)

Module ManagerMore.
Import Bytes Fmt Types Protocol Client Config.

Lemma handleParsed_log (json_Unmarshal_fails : MessageType -> list byte -> bool)
    (message : Message) (onError onSuccess : string) (tm : TunnelManager) :
  exists entry,
    handleParsed json_Unmarshal_fails message onError onSuccess tm
    = log (fst entry) (snd entry) tm.
Proof.
  unfold handleParsed.
  destruct (json_Unmarshal_fails _ _);
    [exists (ErrorLevel, onError) | exists (DebugLevel, onSuccess)];
    reflexivity.
Qed.

(** Whatever the message, [handleMessage] adds two lines to the log and
    does nothing else. *)
Lemma handleMessage_log (json_Unmarshal_fails : MessageType -> list byte -> bool)
    (tunnelID : string) (message : Message) (tm : TunnelManager) :
  exists entry,
    handleMessage json_Unmarshal_fails tunnelID message tm
    = log (fst entry) (snd entry) (log DebugLevel "Handling message" tm).
Proof.
  unfold handleMessage, handleDataForward, handleAcknowledge, handleHeartbeat,
    handleError.
  destruct (Type_ message);
    try (exists (WarnLevel, "Unknown message type"); reflexivity);
    try apply handleParsed_log.
  destruct (json_Unmarshal_fails _ _);
    [exists (ErrorLevel, "Failed to parse error payload")
    |exists (ErrorLevel, "Received error from server")]; reflexivity.
Qed.


End ManagerMore.

Import ManagerMore.

(** X15.  Whatever the kind and the payload of a received message,
    [handleMessage] adds two lines to the log and changes nothing else: no
    frame is written to the link, so a [DataForward] gets no response, and
    the pool, the tunnel table and the clock are as before. *)
Theorem handleMessage_only_logs
    (json_Unmarshal_fails : MessageType -> list byte -> bool)
    (tunnelID : string) (message : Message) (tm : TunnelManager) :
  let tm' := handleMessage json_Unmarshal_fails tunnelID message tm in
  dataPlane tm' = dataPlane tm
  /\ written (dataPlane tm') = written (dataPlane tm)
  /\ connectionPool tm' = connectionPool tm
  /\ tunnels tm' = tunnels tm
  /\ slept tm' = slept tm /\ clock tm' = clock tm
  /\ exists entry,
       logged tm' = logged tm ++ [(DebugLevel, "Handling message"); entry].
Proof.
  cbv zeta.
  destruct (handleMessage_log json_Unmarshal_fails tunnelID message tm)
    as ([lvl text] & ->).
  cbn [log dataPlane connectionPool tunnels slept clock logged fst snd].
  repeat split. exists (lvl, text). rewrite <- app_assoc. reflexivity.
Qed.



(** X17.  A reconnection that succeeds: when the tunnel is known, the dial
    gives a link that takes the writes and the registration record is
    marshalled, [reconnectTunnel] sleeps the configured interval once,
    writes one TunnelRegistration frame for the tunnel on the new link
    (with [max_connections] 10 and no public port) and puts the tunnel in
    the active state with its error cleared. *)
Theorem reconnect_registers_again (dialer : nat -> DialResult)
    (json_Marshal_Registration : TunnelRegistrationPayload -> list byte + error)
    (tunnelID : string) (tm : TunnelManager) (ti : TunnelInfo) (c : Conn)
    (data : list byte) :
  tunnels tm !! tunnelID = Some ti ->
  dialer (dials (dataPlane tm)) = Established c ->
  writable c = true ->
  json_Marshal_Registration
    {| reg_Protocol := t_Protocol (ti_Tunnel ti);
       reg_LocalPort := t_LocalPort (ti_Tunnel ti);
       reg_Subdomain := t_Subdomain (ti_Tunnel ti);
       reg_PublicPort := None;
       reg_MaxConnections := 10 |} = inl data ->
  let tm' := reconnectTunnel dialer json_Marshal_Registration tunnelID tm in
  slept tm' = slept tm ++ [Config.ReconnectInterval (config tm)]
  /\ link (dataPlane tm')
     = Some {| inbound := inbound c;
               outbound :=
                 outbound c
                 ++ [Serialize
                       (NewMessage (clock tm + Config.ReconnectInterval (config tm))
                          MessageTypeTunnelRegistration
                          (t_ID (ti_Tunnel ti)) data)];
               writable := true |}
  /\ ti_State <$> (tunnels tm' !! tunnelID) = Some TunnelStateActive
  /\ ti_Error <$> (tunnels tm' !! tunnelID) = Some None.
Proof.
  intros Hknown Hdial Hw Hjson. cbv zeta. unfold reconnectTunnel.
  cbn [log tunnels]. rewrite Hknown.
  assert (Hd : dials (Disconnect (dataPlane tm)) = dials (dataPlane tm)).
  { unfold Disconnect. destruct (negb _); reflexivity. }
  assert (Hc : connected (Disconnect (dataPlane tm)) = false).
  { unfold Disconnect, connected.
    destruct (link (dataPlane tm)) eqn:Hl; cbn;
      [reflexivity | rewrite Hl; reflexivity]. }
  unfold Connect. cbn [Sleep withDataPlane dataPlane log clock].
  rewrite Hc, Hd, Hdial.
  unfold RegisterTunnel, WriteTunnelRegistration, NewTunnelRegistrationMessage.
  cbn [link dials]. rewrite Hjson. unfold WriteMessage. rewrite Hw.
  cbn. rewrite lookup_alter_eq, Hknown. repeat split; reflexivity.
Qed.

Definition accepts_all (n : nat) : DialResult :=
  Established {| inbound := []; outbound := []; writable := true |}.

Lemma reconnect_registers_again_witness :
  ti_State <$> (tunnels (reconnectTunnel accepts_all json_registration "t1"
                           manager_active) !! "t1")
  = Some TunnelStateActive.
Proof.
  apply (reconnect_registers_again accepts_all json_registration "t1"
           manager_active
           {| ti_Tunnel := tunnel_t1; ti_State := TunnelStateActive;
              ti_Error := None; ti_CreatedAt := 0; ti_UpdatedAt := 0 |}
           {| inbound := []; outbound := []; writable := true |} []);
    reflexivity.
Defined.

(** X18.  [reconnectTunnel] is local to its tunnel: on every path the
    pool, the configuration and the entries of the other tunnels are as
    before, and for a tunnel that the manager does not know it neither
    sleeps nor touches the data-plane client nor the tunnel table. *)
Theorem reconnect_is_local (dialer : nat -> DialResult)
    (json_Marshal_Registration : TunnelRegistrationPayload -> list byte + error)
    (tunnelID : string) (tm : TunnelManager) :
  let tm' := reconnectTunnel dialer json_Marshal_Registration tunnelID tm in
  connectionPool tm' = connectionPool tm
  /\ config tm' = config tm
  /\ (forall other, other <> tunnelID ->
        tunnels tm' !! other = tunnels tm !! other)
  /\ (tunnels tm !! tunnelID = None ->
      dataPlane tm' = dataPlane tm /\ slept tm' = slept tm
      /\ tunnels tm' = tunnels tm).
Proof.
  cbv zeta. unfold reconnectTunnel. cbn [log tunnels].
  destruct (tunnels tm !! tunnelID) as [ti|] eqn:Hknown.
  - cbn [Sleep withDataPlane dataPlane log clock config].
    destruct (Connect dialer (Disconnect (dataPlane tm))) as [d [e|]].
    + cbn. repeat split; try discriminate.
      intros other Hne. apply lookup_alter_ne. congruence.
    + destruct (RegisterTunnel _ _ _ _) as [d' [e|]];
        cbn; (repeat split; try discriminate);
        intros other Hne; apply lookup_alter_ne; congruence.
  - cbn. repeat split.
Qed.

(** X19.  [StopTunnel] on a tunnel that the manager knows removes it from
    the table and returns no error, whether or not the control plane
    could delete it; on an unknown tunnel it returns "tunnel <id> not
    found" and the table is as before.  The other tunnels stay. *)
Theorem StopTunnel_removes_the_tunnel (deleteError : option error)
    (tunnelID : string) (tm : TunnelManager) :
  let r := StopTunnel deleteError tunnelID tm in
  match getTunnel tunnelID tm with
  | Some _ => snd r = None /\ getTunnel tunnelID (fst r) = None
  | None =>
      snd r = Some ("tunnel " ++ tunnelID ++ " not found")%string
      /\ tunnels (fst r) = tunnels tm
  end
  /\ forall other, other <> tunnelID ->
       getTunnel other (fst r) = getTunnel other tm.
Proof.
  cbv zeta. unfold StopTunnel, getTunnel. cbn [log tunnels].
  destruct (tunnels tm !! tunnelID) as [ti|] eqn:Hknown.
  - cbn [fst snd tunnels]. split.
    + split; [reflexivity | apply lookup_delete_eq].
    + intros other Hne. rewrite lookup_delete_ne by congruence.
      destruct deleteError; cbn; apply lookup_alter_ne; congruence.
  - cbn. split; [split; reflexivity|]. intros other _. reflexivity.
Qed.

(** X20.  After [Disconnect] the client sends nothing: it is not
    connected, [SendHeartbeat] and [RegisterTunnel] fail with "not
    connected to server" and leave it as it is, a second [Disconnect]
    changes nothing, and the count of dials is the one before. *)
Theorem nothing_is_sent_after_disconnect
    (json_Marshal_Heartbeat : HeartbeatPayload -> list byte + error)
    (json_Marshal_Registration : TunnelRegistrationPayload -> list byte + error)
    (now : Z) (d : DataPlaneClient) (tunnelID : string)
    (activeConns totalRequests : Z) (tunnel : Tunnel) :
  let d' := Disconnect d in
  connected d' = false
  /\ written d' = []
  /\ SendHeartbeat json_Marshal_Heartbeat now d' tunnelID activeConns
       totalRequests
     = (d', Some "not connected to server")
  /\ RegisterTunnel json_Marshal_Registration now d' tunnel
     = (d', Some "not connected to server")
  /\ Disconnect d' = d'
  /\ dials d' = dials d.
Proof.
  cbv zeta. destruct d as [[c|] n]; cbn; repeat split.
Qed.

(** X21.  [Connect] dials once at most: when it succeeds the client is
    connected after one more dial, and a second [Connect] fails with
    "already connected" without dialing and without touching the link. *)
Theorem second_connect_is_refused (dialer : nat -> DialResult)
    (d d1 : DataPlaneClient) :
  Connect dialer d = (d1, None) ->
  connected d1 = true
  /\ dials d1 = S (dials d)
  /\ Connect dialer d1 = (d1, Some "already connected").
Proof.
  unfold Connect. destruct (connected d) eqn:Hc; [discriminate|].
  destruct (dialer (dials d)) as [e|e|c]; try discriminate.
  intros [= <-]. cbn. repeat split.
Qed.

Lemma second_connect_is_refused_witness :
  connected {| link := Some {| inbound := []; outbound := [];
                               writable := true |}; dials := 1 |} = true
  /\ dials {| link := Some {| inbound := []; outbound := [];
                              writable := true |}; dials := 1 |} = 1%nat
  /\ Connect accepts_all
       {| link := Some {| inbound := []; outbound := []; writable := true |};
          dials := 1 |}
     = ({| link := Some {| inbound := []; outbound := []; writable := true |};
           dials := 1 |}, Some "already connected").
Proof.
  apply (second_connect_is_refused accepts_all {| link := None; dials := 0 |}).
  reflexivity.
Defined.

(** ** The forwarders, further *)

(** X22.  A forwarded request that the local service answers: the
    response of [HandleRequest] carries the status and the body of the
    local response, and for every header name the first of its values; a
    name with an empty list of values is left out. *)
Theorem forwarded_response_keeps_first_header_values (Request : Type)
    (http_NewRequest : string -> string -> list byte -> Request + error)
    (Header_Set : string -> string -> Request -> Request)
    (client_Do : Request -> Response + error)
    (hp : HTTPProxy) (req : DataForwardPayload) (httpReq : Request)
    (resp : Response) (body : list byte) :
  http_NewRequest (df_Method req)
    ("http://localhost:" ++ itoa (localPort hp) ++ df_Path req)%string
    (df_Data req) = inl httpReq ->
  client_Do (withForwardingHeaders Request Header_Set hp req httpReq)
  = inl resp ->
  rs_Body resp = inl body ->
  exists out,
    HandleRequest Request http_NewRequest Header_Set client_Do hp req
    = (Some out, None)
    /\ dr_StatusCode out = rs_StatusCode resp
    /\ dr_Data out = body
    /\ (forall name values,
          rs_Header resp !! name = Some values ->
          dr_Headers out !! name = head values)
    /\ (forall name,
          rs_Header resp !! name = None -> dr_Headers out !! name = None).
Proof.
  intros Hnew Hdo Hbody. unfold HandleRequest. cbv zeta.
  rewrite Hnew, Hdo, Hbody. eexists. split; [reflexivity|].
  cbn [dr_StatusCode dr_Data dr_Headers].
  split; [reflexivity|]. split; [reflexivity|].
  split; intros name; [intros values Hv|intros Hv];
    rewrite lookup_omap, Hv; reflexivity.
Qed.

Definition local_response : Response :=
  {| rs_StatusCode := 200;
     rs_Header := {[ "Content-Type" := ["application/json"; "text/plain"] ]};
     rs_Body := inl [x6f; x6b] |}.

Definition local_ok (r : string * string) : Response + error :=
  inl local_response.

Lemma forwarded_response_keeps_first_header_values_witness :
  exists out,
    HandleRequest (string * string) new_request_ok header_set_ignored
      local_ok proxy_3000 request_456 = (Some out, None)
    /\ dr_StatusCode out = rs_StatusCode local_response
    /\ dr_Data out = [x6f; x6b]
    /\ (forall name values,
          rs_Header local_response !! name = Some values ->
          dr_Headers out !! name = head values)
    /\ (forall name,
          rs_Header local_response !! name = None ->
          dr_Headers out !! name = None).
Proof.
  apply (forwarded_response_keeps_first_header_values (string * string)
           new_request_ok header_set_ignored local_ok proxy_3000 request_456
           ("GET", "http://localhost:3000/api/test") local_response
           [x6f; x6b]); reflexivity.
Defined.

(** The bodies of the two synthetic 500 responses, as the forwarder sends
    them. *)
Definition body_500_create : string :=
  ("{" ++ quote ++ "error" ++ quote ++ ": " ++ quote
       ++ "Failed to create request" ++ quote
       ++ ", " ++ quote ++ "status" ++ quote ++ ": 500}")%string.

Definition body_500_read : string :=
  ("{" ++ quote ++ "error" ++ quote ++ ": " ++ quote
       ++ "Failed to read response" ++ quote
       ++ ", " ++ quote ++ "status" ++ quote ++ ": 500}")%string.

(** X23.  The two synthetic 500 responses: when the request cannot be
    built, [HandleRequest] answers 500 "Failed to create request" and the
    local service is not called (the answer is the same whatever
    [client.Do] would do); when the body of the local response cannot be
    read, it answers 500 "Failed to read response" and the status of the
    local response is dropped. *)
Theorem construction_and_read_failures_give_500 (Request : Type)
    (http_NewRequest : string -> string -> list byte -> Request + error)
    (Header_Set : string -> string -> Request -> Request)
    (client_Do : Request -> Response + error)
    (hp : HTTPProxy) (req : DataForwardPayload) :
  let synthetic body :=
    (Some {| dr_ConnectionID := df_ConnectionID req;
             dr_RequestID := df_RequestID req;
             dr_Data := list_byte_of_string body;
             dr_StatusCode := 500;
             dr_Headers := {[ "Content-Type" := "application/json" ]} |},
     @None error) in
  (forall e (other_Do : Request -> Response + error),
      http_NewRequest (df_Method req)
        ("http://localhost:" ++ itoa (localPort hp) ++ df_Path req)%string
        (df_Data req) = inr e ->
      HandleRequest Request http_NewRequest Header_Set other_Do hp req
      = synthetic body_500_create)
  /\ (forall httpReq resp e,
        http_NewRequest (df_Method req)
          ("http://localhost:" ++ itoa (localPort hp) ++ df_Path req)%string
          (df_Data req) = inl httpReq ->
        client_Do (withForwardingHeaders Request Header_Set hp req httpReq)
        = inl resp ->
        rs_Body resp = inr e ->
        HandleRequest Request http_NewRequest Header_Set client_Do hp req
        = synthetic body_500_read).
Proof.
  cbv zeta. split.
  - intros e other_Do Hnew. unfold HandleRequest. cbv zeta.
    rewrite Hnew. reflexivity.
  - intros httpReq resp e Hnew Hdo Hbody. unfold HandleRequest. cbv zeta.
    rewrite Hnew, Hdo, Hbody. reflexivity.
Qed.

Module TCPFacts.
Import TCP.


End TCPFacts.

Import TCP.



(** X26.  After [Close] the pool is empty and gives no link: whatever the
    pool held, [GetConnection] fails with "no connections available in
    pool" and leaves the closed pool as it is, and the counters of
    [GetStats] are all 0. *)
Theorem closed_pool_gives_no_link (now : Z) (cp : ConnectionPool) :
  GetConnection now (Close cp)
  = (Returned (inr "no connections available in pool"), Close cp)
  /\ total_connections (GetStats (Close cp)) = 0
  /\ healthy_connections (GetStats (Close cp)) = 0
  /\ unhealthy_connections (GetStats (Close cp)) = 0
  /\ GetHealthyConnections (Close cp) = [].
Proof.
  split; [apply GetConnection_empty; reflexivity|].
  repeat split.
Qed.

